(** * The multilayer perceptron of [pyrad/fields/modules/mlp.py]

    A shallow embedding of the class [MLP]: its constructor [__init__],
    the layer builder [build_nn_modules] and the evaluation loop
    [forward], followed by the properties of the layer topology, of the
    error paths and of the evaluation.

    Conventions of the embedding.
    - Python integers are [Z]; positions in a list are [nat].
    - A tensor is seen along its trailing axis: the sizes of the leading
      (batch) axes, the size of the trailing axis and one row of entries
      per batch position.  Entries are exact integers: rounding, NaN and
      infinities of floating-point numbers are outside the model.
    - Python exceptions are values of [error]; a computation that may
      raise returns a [result].
    - [nn.Linear] draws its initial weights from the generator of the
      tensor library; here they are read from a parameter source
      [Params], so that every statement quantifies over all weights. *)

From Stdlib Require Import ZArith String Lia.
From stdpp Require Import base tactics decidable option numbers list.

Local Open Scope Z_scope.

(** ** Exceptions *)

Inductive error : Type :=
| AssertionError (msg : string)
| RuntimeError (msg : string).

Inductive result (A : Type) : Type :=
| Ok (a : A)
| Raise (e : error).

Arguments Ok {A} a.
Arguments Raise {A} e.

Definition rbind {A B : Type} (r : result A) (k : A → result B) : result B :=
  match r with
  | Ok a => k a
  | Raise e => Raise e
  end.

Notation "'let*' x ':=' r 'in' k" := (rbind r (λ x, k))
  (at level 10, x name, r at level 100, k at level 200).

Definition is_assertion_error {A : Type} (r : result A) : Prop :=
  match r with
  | Raise (AssertionError _) => True
  | _ => False
  end.

Definition succeeds {A : Type} (r : result A) : Prop :=
  match r with
  | Ok _ => True
  | Raise _ => False
  end.

(** ** Tensors, seen along the trailing axis *)

Record Tensor : Type := mkTensor {
  batch : list nat;        (* sizes of the leading axes *)
  dim : nat;               (* size of the trailing axis *)
  rows : list (list Z)     (* one row per batch position *)
}.

Definition shape (t : Tensor) : list nat := batch t ++ [dim t].

Definition numel (sizes : list nat) : nat := foldr Nat.mul 1%nat sizes.

Definition tensor_wf (t : Tensor) : Prop :=
  length (rows t) = numel (batch t) ∧ Forall (λ r, length r = dim t) (rows t).

(** [torch.cat([a, b], -1)]: the leading sizes must agree; the rows are
    joined pairwise. *)
Definition torch_cat (a b : Tensor) : result Tensor :=
  if decide (batch a = batch b) then
    Ok {| batch := batch a;
          dim := (dim a + dim b)%nat;
          rows := zip_with app (rows a) (rows b) |}
  else Raise (RuntimeError "Sizes of tensors must match except in dimension -1").

(** ** The linear unit [nn.Linear] *)

Record Linear : Type := mkLinear {
  in_features : Z;
  out_features : Z;
  weight : list (list Z);  (* out_features rows of in_features entries *)
  bias : list Z            (* out_features entries *)
}.

(** Initial parameters: entry (r, c) of the weight and entry r of the
    bias of the k-th unit created. *)
Record Params : Type := mkParams {
  weight_at : nat → nat → nat → Z;
  bias_at : nat → nat → Z
}.

Definition tabulate {A : Type} (n : nat) (f : nat → A) : list A :=
  f <$> seq 0 n.

(** The unit [nn.Linear(i, o)] holds once its parameters are allocated. *)
Definition init_Linear (P : Params) (k : nat) (i o : Z) : Linear :=
  {| in_features := i;
     out_features := o;
     weight := tabulate (Z.to_nat o)
                 (λ r, tabulate (Z.to_nat i) (λ c, weight_at P k r c));
     bias := tabulate (Z.to_nat o) (λ r, bias_at P k r) |}.

(** [nn.Linear(i, o)]: the tensor library refuses a negative size. *)
Definition nn_Linear (P : Params) (k : nat) (i o : Z) : result Linear :=
  if decide (i < 0 ∨ o < 0) then
    Raise (RuntimeError "Trying to create tensor with negative dimension")
  else Ok (init_Linear P k i o).

Definition dot (u v : list Z) : Z := foldr Z.add 0 (zip_with Z.mul u v).

Definition affine (W : list (list Z)) (b : list Z) (r : list Z) : list Z :=
  zip_with (λ w bi, dot w r + bi) W b.

(** Calling a linear unit: an affine map over the trailing axis, batched
    over the leading ones; a trailing size other than [in_features] is a
    shape error. *)
Definition Linear_forward (l : Linear) (x : Tensor) : result Tensor :=
  if decide (Z.of_nat (dim x) = in_features l) then
    Ok {| batch := batch x;
          dim := Z.to_nat (out_features l);
          rows := affine (weight l) (bias l) <$> rows x |}
  else Raise (RuntimeError "mat1 and mat2 shapes cannot be multiplied").

Definition features (l : Linear) : Z * Z := (in_features l, out_features l).

Definition Linear_wf (l : Linear) : Prop :=
  0 ≤ in_features l ∧ 0 ≤ out_features l ∧
  length (weight l) = Z.to_nat (out_features l) ∧
  length (bias l) = Z.to_nat (out_features l) ∧
  Forall (λ w, length w = Z.to_nat (in_features l)) (weight l).

(** ** Activations: element-wise transforms

    An activation is a module.  Called, it maps every entry of a tensor.
    Tested by [if], it has the truth value Python gives an object: true
    for a module that defines neither [__bool__] nor [__len__], as
    [nn.ReLU()]; false for a container module of length 0, as
    [nn.Sequential()], which maps a tensor to itself when called. *)

Record Activation : Type := mkActivation {
  truthy : bool;           (* the value of [bool(module)] *)
  act : Z → Z              (* the map of one entry *)
}.

Definition apply_activation (f : Activation) (x : Tensor) : Tensor :=
  {| batch := batch x; dim := dim x;
     rows := (λ r : list Z, act f <$> r) <$> rows x |}.

Definition ReLU : Activation := {| truthy := true; act := Z.max 0 |}.


(** ** Python's [range] and [enumerate] *)

Definition range (n : Z) : list Z := Z.of_nat <$> seq 0 (Z.to_nat n).

Fixpoint enumerate_from {A : Type} (start : nat) (l : list A) : list (nat * A) :=
  match l with
  | [] => []
  | a :: l' => (start, a) :: enumerate_from (S start) l'
  end.

Definition enumerate {A : Type} (l : list A) : list (nat * A) := enumerate_from 0 l.

(** ** The class [MLP] *)

Module MLP.

(** The arguments of the constructor. *)
Record args : Type := mkArgs {
  arg_in_dim : Z;
  arg_num_layers : Z;
  arg_layer_width : Z;
  arg_out_dim : option Z;
  arg_skip_connections : list Z;
  arg_activation : option Activation;
  arg_out_activation : option Activation
}.

(** The attributes of an instance (the attribute [net], set to [None]
    by the constructor and never read, is left out). *)
Record t : Type := mk {
  in_dim : Z;
  out_dim : Z;
  num_layers : Z;
  layer_width : Z;
  skip_connections : list Z;
  activation : option Activation;
  out_activation : option Activation;
  layers : list Linear
}.

Definition set_layers (self : t) (ls : list Linear) : t :=
  {| in_dim := in_dim self; out_dim := out_dim self;
     num_layers := num_layers self; layer_width := layer_width self;
     skip_connections := skip_connections self;
     activation := activation self; out_activation := out_activation self;
     layers := ls |}.

(** The body of [for i in range(self.num_layers - 1)], with the list
    [layers] built so far. *)
Fixpoint build_hidden (P : Params) (self : t) (idx : list Z)
    (layers : list Linear) : result (list Linear) :=
  match idx with
  | [] => Ok layers
  | i :: idx' =>
      if decide (i = 0) then
        if decide (i ∈ skip_connections self) then
          Raise (AssertionError "Skip connection at layer 0 doesn't make sense.")
        else
          let* l := nn_Linear P (length layers) (in_dim self) (layer_width self) in
          build_hidden P self idx' (layers ++ [l])
      else if decide (i ∈ skip_connections self) then
        let* l := nn_Linear P (length layers)
                    (layer_width self + in_dim self) (layer_width self) in
        build_hidden P self idx' (layers ++ [l])
      else
        let* l := nn_Linear P (length layers) (layer_width self) (layer_width self) in
        build_hidden P self idx' (layers ++ [l])
  end.

Definition build_nn_modules (P : Params) (self : t) : result t :=
  let* layers :=
    (if decide (num_layers self = 1) then
       let* l := nn_Linear P 0 (in_dim self) (out_dim self) in
       Ok ([] ++ [l])
     else
       let* layers := build_hidden P self (range (num_layers self - 1)) [] in
       let* l := nn_Linear P (length layers) (layer_width self) (out_dim self) in
       Ok (layers ++ [l])) in
  Ok (set_layers self layers).

Definition __init__ (P : Params) (a : args) : result t :=
  if decide (arg_in_dim a > 0) then
    build_nn_modules P
      {| in_dim := arg_in_dim a;
         out_dim := match arg_out_dim a with
                    | Some o => o
                    | None => arg_layer_width a
                    end;
         num_layers := arg_num_layers a;
         layer_width := arg_layer_width a;
         skip_connections := arg_skip_connections a;
         activation := arg_activation a;
         out_activation := arg_out_activation a;
         layers := [] |}
  else Raise (AssertionError "").

(** The body of [for i, layer in enumerate(self.layers)], with the
    running value [x].  The test [if self.activation:] fails on [None]
    and on a module whose truth value is false. *)
Fixpoint forward_loop (self : t) (in_tensor : Tensor)
    (ils : list (nat * Linear)) (x : Tensor) : result Tensor :=
  match ils with
  | [] => Ok x
  | (i, layer) :: ils' =>
      let* x := (if decide (Z.of_nat i ∈ skip_connections self)
                 then torch_cat in_tensor x else Ok x) in
      let* x := Linear_forward layer x in
      let x := match activation self with
               | Some f => if truthy f then apply_activation f x else x
               | None => x
               end in
      forward_loop self in_tensor ils' x
  end.

Definition forward (self : t) (in_tensor : Tensor) : result Tensor :=
  forward_loop self in_tensor (enumerate (layers self)) in_tensor.

(** *** Evaluation with a log of the operations performed

    The same loop, recording each call made to the tensor library: the
    concatenation of the input, the call of the unit, the call of the
    activation. *)

Inductive event : Type :=
| EvCat (i : nat)
| EvLinear (i : nat)
| EvActivation (i : nat).

Fixpoint forward_loop_log (self : t) (in_tensor : Tensor)
    (ils : list (nat * Linear)) (x : Tensor) : list event * result Tensor :=
  match ils with
  | [] => ([], Ok x)
  | (i, layer) :: ils' =>
      let cat := bool_decide (Z.of_nat i ∈ skip_connections self) in
      let ev_cat := if cat then [EvCat i] else [] in
      match (if cat then torch_cat in_tensor x else Ok x) with
      | Raise e => (ev_cat, Raise e)
      | Ok x =>
          match Linear_forward layer x with
          | Raise e => (ev_cat ++ [EvLinear i], Raise e)
          | Ok x =>
              match activation self with
              | Some f =>
                  if truthy f then
                    let (evs, r) :=
                      forward_loop_log self in_tensor ils' (apply_activation f x) in
                    (ev_cat ++ [EvLinear i; EvActivation i] ++ evs, r)
                  else
                    let (evs, r) := forward_loop_log self in_tensor ils' x in
                    (ev_cat ++ [EvLinear i] ++ evs, r)
              | None =>
                  let (evs, r) := forward_loop_log self in_tensor ils' x in
                  (ev_cat ++ [EvLinear i] ++ evs, r)
              end
          end
      end
  end.

Definition forward_log (self : t) (in_tensor : Tensor) : list event * result Tensor :=
  forward_loop_log self in_tensor (enumerate (layers self)) in_tensor.

(** The outcome of the test [if self.activation:]. *)
Definition activation_tests_true (self : t) : bool :=
  match activation self with
  | Some f => truthy f
  | None => false
  end.


(** *** The stack as a composition of affine maps

    The evaluation as the specification words it when no activation is
    configured: the unit at a skip index receives the input joined with
    the running value, every unit applies its affine map, and the units
    are composed in order. *)

Definition affine_unit (skips : list Z) (in_tensor : Tensor) (i : nat)
    (l : Linear) (x : Tensor) : result Tensor :=
  if decide (Z.of_nat i ∈ skips) then
    rbind (torch_cat in_tensor x) (Linear_forward l)
  else Linear_forward l x.

Definition compose_units (fs : list (Tensor → result Tensor)) : Tensor → result Tensor :=
  foldr (λ f rest x, rbind (f x) rest) Ok fs.

Definition affine_composition (self : t) (in_tensor : Tensor) : result Tensor :=
  compose_units (imap (affine_unit (skip_connections self) in_tensor) (layers self))
    in_tensor.

(** *** Widths that line up

    [well_chained skips d_in w ils w_out]: a running value of trailing
    size [w] passes through the units [ils], each receiving [d_in] more
    entries when its index is a skip index, and leaves with trailing size
    [w_out]. *)
Fixpoint well_chained (skips : list Z) (d_in w : nat)
    (ils : list (nat * Linear)) (w_out : nat) : Prop :=
  match ils with
  | [] => w = w_out
  | (i, l) :: ils' =>
      Linear_wf l ∧
      in_features l =
        Z.of_nat (if decide (Z.of_nat i ∈ skips) then d_in + w else w) ∧
      well_chained skips d_in (Z.to_nat (out_features l)) ils' w_out
  end.

(** *** The topology the constructor derives from a configuration *)

(** Input width of the hidden unit at index [j]. *)
Definition hidden_in (self : t) (j : nat) : Z :=
  if decide (j = 0%nat) then in_dim self
  else if decide (Z.of_nat j ∈ skip_connections self)
       then layer_width self + in_dim self
       else layer_width self.

Definition hidden_unit (P : Params) (self : t) (j : nat) : Linear :=
  init_Linear P j (hidden_in self j) (layer_width self).

(** The instance as [__init__] leaves it before [build_nn_modules]. *)
Definition fresh (a : args) : t :=
  {| in_dim := arg_in_dim a;
     out_dim := match arg_out_dim a with
                | Some o => o
                | None => arg_layer_width a
                end;
     num_layers := arg_num_layers a;
     layer_width := arg_layer_width a;
     skip_connections := arg_skip_connections a;
     activation := arg_activation a;
     out_activation := arg_out_activation a;
     layers := [] |}.

Definition set_out_activation (self : t) (oa : option Activation) : t :=
  {| in_dim := in_dim self; out_dim := out_dim self;
     num_layers := num_layers self; layer_width := layer_width self;
     skip_connections := skip_connections self;
     activation := activation self; out_activation := oa;
     layers := layers self |}.

Definition with_out_activation (a : args) (oa : option Activation) : args :=
  {| arg_in_dim := arg_in_dim a; arg_num_layers := arg_num_layers a;
     arg_layer_width := arg_layer_width a; arg_out_dim := arg_out_dim a;
     arg_skip_connections := arg_skip_connections a;
     arg_activation := arg_activation a; arg_out_activation := oa |}.

Definition with_skip_connections (a : args) (sk : list Z) : args :=
  {| arg_in_dim := arg_in_dim a; arg_num_layers := arg_num_layers a;
     arg_layer_width := arg_layer_width a; arg_out_dim := arg_out_dim a;
     arg_skip_connections := sk;
     arg_activation := arg_activation a;
     arg_out_activation := arg_out_activation a |}.

Definition set_skip_connections (self : t) (sk : list Z) : t :=
  {| in_dim := in_dim self; out_dim := out_dim self;
     num_layers := num_layers self; layer_width := layer_width self;
     skip_connections := sk;
     activation := activation self; out_activation := out_activation self;
     layers := layers self |}.

(** *** The loop of [forward] on one batch position

    What the body of the loop does to the row of one batch position:
    the row of the input at that position is joined in front at a skip
    index, the unit maps the row, the activation maps its entries. *)
Fixpoint row_forward_loop (self : t) (in_row : list Z)
    (ils : list (nat * Linear)) (r : list Z) : list Z :=
  match ils with
  | [] => r
  | (i, layer) :: ils' =>
      let r := if decide (Z.of_nat i ∈ skip_connections self)
               then in_row ++ r else r in
      let r := affine (weight layer) (bias layer) r in
      let r := match activation self with
               | Some f => if truthy f then act f <$> r else r
               | None => r
               end in
      row_forward_loop self in_row ils' r
  end.

Definition row_forward (self : t) (in_row : list Z) : list Z :=
  row_forward_loop self in_row (enumerate (layers self)) in_row.

End MLP.

(** ** Concrete configurations and inputs *)

Definition example_params : Params :=
  {| weight_at := λ k r c, Z.of_nat r - Z.of_nat c - 1;
     bias_at := λ k r, Z.of_nat k - 1 |}.


(** [MLP(4, 3, 8, out_dim=4, skip_connections=(1,))] *)
Definition skip_at_1 : MLP.args :=
  MLP.mkArgs 4 3 8 (Some 4) [1] (Some ReLU) None.

(** [MLP(4, 3, 8, out_dim=4, skip_connections=(2,))]: the skip index is
    that of the output unit. *)
Definition skip_at_last : MLP.args :=
  MLP.mkArgs 4 3 8 (Some 4) [2] (Some ReLU) None.

(** [MLP(4, 3, 8, out_dim=4, skip_connections=(5,))] *)
Definition skip_beyond : MLP.args :=
  MLP.mkArgs 4 3 8 (Some 4) [5] (Some ReLU) None.

(** [MLP(4, 1, 8, out_dim=3, skip_connections=(0,))] *)
Definition single_skip_at_0 : MLP.args :=
  MLP.mkArgs 4 1 8 (Some 3) [0] (Some ReLU) None.

(** [MLP(4, 1, 8, out_dim=3, skip_connections=(3,))] *)
Definition single_layer : MLP.args :=
  MLP.mkArgs 4 1 8 (Some 3) [3] (Some ReLU) None.

(** [MLP(4, 0, 8)] *)
Definition zero_layers : MLP.args :=
  MLP.mkArgs 4 0 8 None [] (Some ReLU) None.

(** [MLP(0, 3, 8)] *)
Definition zero_in_dim : MLP.args :=
  MLP.mkArgs 0 3 8 None [1] (Some ReLU) None.

(** [MLP(4, 3, 8, out_dim=4, skip_connections=(1,), activation=None)] *)
Definition no_activation : MLP.args :=
  MLP.mkArgs 4 3 8 (Some 4) [1] None None.


(** A batch of shape [5, 4]. *)
Definition batch_of_5 : Tensor := mkTensor [5%nat] 4 (replicate 5 [1; -2; 3; -4]).

(** An empty batch, of shape [0, 4]. *)
Definition empty_batch : Tensor := mkTensor [0%nat] 4 [].

(** A batch of shape [2, 3, 4]. *)
Definition batch_of_2_3 : Tensor :=
  mkTensor [2%nat; 3%nat] 4 (replicate 6 [1; -2; 3; -4]).

(** [MLP(4, 3, 8, out_dim=4, skip_connections=(0, 1))] *)
Definition skip_at_0_deep : MLP.args :=
  MLP.mkArgs 4 3 8 (Some 4) [0; 1] (Some ReLU) None.

(** [MLP(4, 3, 8, skip_connections=(1, 7, -2, 1))]: the skip index 1
    twice, among indices that name no unit. *)
Definition skip_with_strays : MLP.args :=
  MLP.mkArgs 4 3 8 (Some 4) [1; 7; -2; 1] (Some ReLU) None.

(** [MLP(4, -2, 8)] *)
Definition negative_layers : MLP.args :=
  MLP.mkArgs 4 (-2) 8 None [] (Some ReLU) None.


(** [MLP(4, 1, 8, out_dim=3)] *)
Definition single_layer_no_skip : MLP.args :=
  MLP.mkArgs 4 1 8 (Some 3) [] (Some ReLU) None.

(** A batch of shape [2, 3], too narrow for an input width of 4. *)
Definition narrow_batch : Tensor := mkTensor [2%nat] 3 (replicate 2 [1; -2; 3]).

Import MLP.

(** ** Computations that may raise *)

Lemma rbind_Ok {A B : Type} (r : result A) (k : A → result B) (b : B) :
  rbind r k = Ok b ↔ ∃ a, r = Ok a ∧ k a = Ok b.
Proof.
  destruct r as [a|e]; simpl; split.
  - intros H. by exists a.
  - by intros (a' & [= <-] & H).
  - intros [=].
  - by intros (a' & [=] & _).
Qed.

(** ** Linear units *)

Lemma length_tabulate {A : Type} (n : nat) (f : nat → A) :
  length (tabulate n f) = n.
Proof. unfold tabulate. by rewrite length_fmap, length_seq. Qed.

Lemma nn_Linear_Ok (P : Params) (k : nat) (i o : Z) :
  0 ≤ i → 0 ≤ o → nn_Linear P k i o = Ok (init_Linear P k i o).
Proof. intros Hi Ho. unfold nn_Linear. case_decide; [lia | done]. Qed.

Lemma nn_Linear_inv (P : Params) (k : nat) (i o : Z) (l : Linear) :
  nn_Linear P k i o = Ok l → l = init_Linear P k i o ∧ 0 ≤ i ∧ 0 ≤ o.
Proof.
  unfold nn_Linear. case_decide; [done |].
  intros [= <-]. split; [done | lia].
Qed.

Lemma init_Linear_wf (P : Params) (k : nat) (i o : Z) :
  0 ≤ i → 0 ≤ o → Linear_wf (init_Linear P k i o).
Proof.
  intros Hi Ho. unfold Linear_wf; simpl.
  rewrite !length_tabulate. repeat split; try done.
  unfold tabulate at 1. apply Forall_fmap, Forall_forall.
  intros r _. simpl. apply length_tabulate.
Qed.

(** ** The layer builder *)

Lemma init_unfold (P : Params) (a : args) :
  __init__ P a =
  if decide (arg_in_dim a > 0) then build_nn_modules P (fresh a)
  else Raise (AssertionError "").
Proof. done. Qed.

Lemma range_seq (n : nat) : range (Z.of_nat n) = Z.of_nat <$> seq 0 n.
Proof. unfold range. by rewrite Nat2Z.id. Qed.

Lemma range_nonpos (n : Z) : n ≤ 0 → range n = [].
Proof. intros Hn. unfold range. by replace (Z.to_nat n) with 0%nat by lia. Qed.

Section build.
Variable P : Params.
Variable self : t.
Hypothesis in_dim_nonneg : 0 ≤ in_dim self.
Hypothesis layer_width_nonneg : 0 ≤ layer_width self.
Hypothesis no_skip_at_0 : 0 ∉ skip_connections self.

Lemma hidden_in_nonneg (j : nat) : 0 ≤ hidden_in self j.
Proof. unfold hidden_in. repeat case_decide; lia. Qed.

(** One turn of the loop appends the hidden unit of its index. *)
Lemma build_hidden_seq (n k : nat) (acc : list Linear) :
  length acc = k →
  build_hidden P self (Z.of_nat <$> seq k n) acc =
  Ok (acc ++ (hidden_unit P self <$> seq k n)).
Proof.
  revert k acc. induction n as [|n IH]; intros k acc Hk; simpl.
  - by rewrite app_nil_r.
  - assert (Hstep : ∀ l, l = hidden_unit P self k →
              build_hidden P self (Z.of_nat <$> seq (S k) n) (acc ++ [l]) =
              Ok (acc ++ hidden_unit P self k :: (hidden_unit P self <$> seq (S k) n))).
    { intros l ->. rewrite IH by (rewrite length_app; simpl; lia).
      by rewrite <- app_assoc. }
    rewrite Hk.
    destruct (decide (Z.of_nat k = 0)) as [Hk0|Hk0].
    + rewrite Hk0, decide_False, nn_Linear_Ok by done. simpl. apply Hstep.
      unfold hidden_unit, hidden_in. by rewrite decide_True by lia.
    + destruct (decide (Z.of_nat k ∈ skip_connections self)) as [Hs|Hs].
      * rewrite nn_Linear_Ok by lia. simpl. apply Hstep.
        unfold hidden_unit, hidden_in.
        rewrite decide_False by lia. by rewrite decide_True.
      * rewrite nn_Linear_Ok by lia. simpl. apply Hstep.
        unfold hidden_unit, hidden_in.
        rewrite decide_False by lia. by rewrite decide_False.
Qed.

(** With at least two layers the stack is the hidden units followed by
    the output unit. *)
Lemma build_nn_modules_deep (n : nat) :
  num_layers self = Z.of_nat (S (S n)) →
  0 ≤ out_dim self →
  build_nn_modules P self =
  Ok (set_layers self
        ((hidden_unit P self <$> seq 0 (S n))
         ++ [init_Linear P (S n) (layer_width self) (out_dim self)])).
Proof.
  intros HN Ho. unfold build_nn_modules.
  rewrite decide_False by lia.
  replace (num_layers self - 1) with (Z.of_nat (S n)) by lia.
  rewrite range_seq, build_hidden_seq by done. cbn [rbind app].
  rewrite length_fmap, length_seq, nn_Linear_Ok by done. done.
Qed.
End build.

Lemma build_hidden_length (P : Params) (self : t) (idx : list Z)
    (acc ls : list Linear) :
  build_hidden P self idx acc = Ok ls →
  length ls = (length acc + length idx)%nat.
Proof.
  revert acc. induction idx as [|i idx IH]; intros acc; simpl.
  - intros [= <-]. lia.
  - repeat case_decide; try done;
      intros (l & _ & Hrest)%rbind_Ok;
      apply IH in Hrest; rewrite length_app in Hrest; simpl in Hrest; lia.
Qed.

(** What every successful construction establishes: the input width is
    positive, the attributes are those given, and the stack has one unit
    when [num_layers] is at most 1 and [num_layers] units otherwise. *)
Lemma init_inv (P : Params) (a : args) (m : t) :
  __init__ P a = Ok m →
  arg_in_dim a > 0 ∧
  m = set_layers (fresh a) (layers m) ∧
  length (layers m) = Z.to_nat (Z.max 1 (arg_num_layers a)).
Proof.
  rewrite init_unfold. case_decide; [|done].
  unfold build_nn_modules.
  intros (ls & Hls & [= <-])%rbind_Ok. split; [done|]. split; [done|].
  simpl. revert Hls. case_decide as HN.
  - intros (l & _ & [= <-])%rbind_Ok. simpl in *. rewrite HN. done.
  - intros (hs & Hhs & (l & _ & [= <-])%rbind_Ok)%rbind_Ok.
    apply build_hidden_length in Hhs. simpl in *.
    rewrite length_app, Hhs. unfold range.
    rewrite length_fmap, length_seq. simpl. lia.
Qed.


(** The assertion at the first turn of the loop: with two layers or more
    a skip index 0 is refused. *)
Lemma init_rejects_skip_0 (P : Params) (a : args) :
  2 ≤ arg_num_layers a → 0 ∈ arg_skip_connections a →
  is_assertion_error (__init__ P a).
Proof.
  intros HN H0. rewrite init_unfold. case_decide; [|done].
  unfold build_nn_modules. rewrite decide_False by (simpl; lia).
  unfold range. simpl num_layers.
  destruct (Z.to_nat (arg_num_layers a - 1)) as [|n] eqn:Hn; [lia|].
  simpl. rewrite decide_True by done. done.
Qed.

(** ** The topology of the stack *)

(** C1. For a valid configuration with [num_layers = N >= 2] the
    constructor succeeds and the stack has exactly [N] linear units, each
    with parameters of the size it declares: the first maps [in_dim] to
    [layer_width]; the interior unit at index [i], [1 <= i <= N-2], maps
    [layer_width + in_dim] to [layer_width] when [i] is a skip index and
    [layer_width] to [layer_width] otherwise; the last maps [layer_width]
    to [out_dim]. *)
Theorem deep_stack_topology (P : Params) (a : args) :
  arg_in_dim a > 0 →
  0 ≤ arg_layer_width a →
  0 ≤ out_dim (fresh a) →
  0 ∉ arg_skip_connections a →
  2 ≤ arg_num_layers a →
  ∃ m, __init__ P a = Ok m ∧
    Z.of_nat (length (layers m)) = arg_num_layers a ∧
    Forall Linear_wf (layers m) ∧
    features <$> layers m !! 0%nat = Some (arg_in_dim a, arg_layer_width a) ∧
    (∀ i : nat, 1 ≤ Z.of_nat i ≤ arg_num_layers a - 2 →
       features <$> layers m !! i =
       Some (if decide (Z.of_nat i ∈ arg_skip_connections a)
             then arg_layer_width a + arg_in_dim a
             else arg_layer_width a,
             arg_layer_width a)) ∧
    features <$> layers m !! Z.to_nat (arg_num_layers a - 1) =
      Some (arg_layer_width a, out_dim (fresh a)).
Proof.
  intros Hin Hw Ho H0 HN.
  destruct (Z.to_nat (arg_num_layers a)) as [|[|n]] eqn:Hn; [lia | lia |].
  assert (HN' : arg_num_layers a = Z.of_nat (S (S n))) by lia.
  eexists. rewrite init_unfold, decide_True by done.
  rewrite (build_nn_modules_deep P (fresh a)) with (n := n)
    by (simpl; done || lia).
  split; [done|]. cbn [layers set_layers]. rewrite HN'.
  split_and!.
  - rewrite length_app, length_fmap, length_seq. simpl. lia.
  - apply Forall_app. split.
    + apply Forall_fmap, Forall_forall. intros j _.
      apply init_Linear_wf; [|done].
      apply hidden_in_nonneg; simpl; done || lia.
    + apply Forall_singleton, init_Linear_wf; simpl; done.
  - reflexivity.
  - intros i Hi.
    rewrite lookup_app_l by (rewrite length_fmap, length_seq; lia).
    rewrite list_lookup_fmap. rewrite lookup_seq_lt by lia. simpl.
    unfold hidden_unit, hidden_in, features. simpl.
    rewrite (decide_False (P := i = 0%nat)) by lia.
    by destruct (decide (Z.of_nat i ∈ _)).
  - replace (Z.to_nat (Z.of_nat (S (S n)) - 1)) with (S n) by lia.
    rewrite lookup_app_r; rewrite length_fmap, length_seq; [|lia].
    by rewrite Nat.sub_diag.
Qed.

Lemma deep_stack_topology_witness :
  ∃ m, __init__ example_params skip_at_1 = Ok m ∧
    Z.of_nat (length (layers m)) = 3 ∧
    Forall Linear_wf (layers m) ∧
    features <$> layers m !! 0%nat = Some (4, 8) ∧
    (∀ i : nat, 1 ≤ Z.of_nat i ≤ 3 - 2 →
       features <$> layers m !! i =
       Some (if decide (Z.of_nat i ∈ [1]) then 8 + 4 else 8, 8)) ∧
    features <$> layers m !! Z.to_nat (3 - 1) = Some (8, 4).
Proof.
  apply (deep_stack_topology example_params skip_at_1); simpl; try lia.
  intros H%list_elem_of_singleton. lia.
Defined.

(** C9. With [in_dim <= 0] the constructor raises the assertion error of
    its first check, whatever the other arguments and parameters are; no
    instance is returned and the layer builder is not reached. *)
Theorem nonpositive_in_dim_rejected (P : Params) (a : args) :
  arg_in_dim a ≤ 0 →
  __init__ P a = Raise (AssertionError "") ∧ is_assertion_error (__init__ P a).
Proof.
  intros Hin. rewrite init_unfold, decide_False by lia. done.
Qed.

Lemma nonpositive_in_dim_rejected_witness :
  __init__ example_params zero_in_dim = Raise (AssertionError "") ∧
  is_assertion_error (__init__ example_params zero_in_dim).
Proof.
  apply (nonpositive_in_dim_rejected example_params zero_in_dim). simpl. lia.
Defined.

(** C10. With [in_dim > 0], no skip connection and [num_layers = 0]
    (widths non-negative, as the data model has them) the constructor
    raises nothing: the loop over the hidden layers makes no turn and the
    stack is the single unit mapping [layer_width] to [out_dim]. *)
Theorem zero_layers_stack (P : Params) (a : args) :
  arg_in_dim a > 0 →
  arg_skip_connections a = [] →
  arg_num_layers a = 0 →
  0 ≤ arg_layer_width a →
  0 ≤ out_dim (fresh a) →
  range (arg_num_layers a - 1) = [] ∧
  ∃ m, __init__ P a = Ok m ∧
    layers m = [init_Linear P 0 (arg_layer_width a) (out_dim (fresh a))] ∧
    features <$> layers m = [(arg_layer_width a, out_dim (fresh a))].
Proof.
  intros Hin Hs HN Hw Ho.
  split; [apply range_nonpos; lia|].
  eexists. rewrite init_unfold, decide_True by done.
  unfold build_nn_modules. rewrite decide_False by (simpl; lia).
  simpl num_layers. rewrite range_nonpos by lia. simpl.
  rewrite nn_Linear_Ok by done. simpl. done.
Qed.

Lemma zero_layers_stack_witness :
  range (0 - 1) = [] ∧
  ∃ m, __init__ example_params zero_layers = Ok m ∧
    layers m = [init_Linear example_params 0 8 8] ∧
    features <$> layers m = [(8, 8)].
Proof.
  apply (zero_layers_stack example_params zero_layers); simpl; done || lia.
Defined.

(** ** The evaluation loop *)

Lemma enumerate_from_app {A : Type} (k : nat) (l1 l2 : list A) :
  enumerate_from k (l1 ++ l2) =
  enumerate_from k l1 ++ enumerate_from (k + length l1) l2.
Proof.
  revert k. induction l1 as [|x l1 IH]; intros k; simpl.
  - by rewrite Nat.add_0_r.
  - rewrite IH. do 3 f_equal. lia.
Qed.

Lemma forward_loop_app (self : t) (in_tensor : Tensor)
    (ils1 ils2 : list (nat * Linear)) (x : Tensor) :
  forward_loop self in_tensor (ils1 ++ ils2) x =
  rbind (forward_loop self in_tensor ils1 x) (forward_loop self in_tensor ils2).
Proof.
  revert x. induction ils1 as [|[i l] ils1 IH]; intros x; simpl; [done|].
  destruct (if decide _ then _ else _) as [x1|e]; simpl; [|done].
  destruct (Linear_forward l x1) as [x2|e]; simpl; [|done].
  apply IH.
Qed.

(** The logged loop computes what the loop computes. *)
Lemma forward_loop_log_result (self : t) (in_tensor : Tensor)
    (ils : list (nat * Linear)) (x : Tensor) :
  (forward_loop_log self in_tensor ils x).2 = forward_loop self in_tensor ils x.
Proof.
  revert x. induction ils as [|[i l] ils IH]; intros x; simpl; [done|].
  destruct (decide (Z.of_nat i ∈ skip_connections self)) as [Hs|Hs].
  - rewrite bool_decide_eq_true_2 by done.
    destruct (torch_cat in_tensor x) as [x1|e]; simpl; [|done].
    destruct (Linear_forward l x1) as [x2|e]; simpl; [|done].
    destruct (activation self) as [[[] f]|]; simpl;
      rewrite <- IH; by destruct (forward_loop_log _ _ _ _).
  - rewrite bool_decide_eq_false_2 by done. simpl.
    destruct (Linear_forward l x) as [x2|e]; simpl; [|done].
    destruct (activation self) as [[[] f]|]; simpl;
      rewrite <- IH; by destruct (forward_loop_log _ _ _ _).
Qed.

Lemma forward_log_result (self : t) (in_tensor : Tensor) :
  (forward_log self in_tensor).2 = forward self in_tensor.
Proof. apply forward_loop_log_result. Qed.

(** A concatenation is logged only at a skip index that is the index of
    a unit, whether the evaluation completes or raises. *)
Lemma forward_loop_log_cat (self : t) (in_tensor : Tensor) (ls : list Linear)
    (k : nat) (x : Tensor) (i : nat) :
  EvCat i ∈ (forward_loop_log self in_tensor (enumerate_from k ls) x).1 →
  Z.of_nat i ∈ skip_connections self ∧ (k ≤ i < k + length ls)%nat.
Proof.
  revert k x. induction ls as [|l ls IH]; intros k x; simpl.
  - by intros ?%elem_of_nil.
  - assert (Hrest : ∀ x', EvCat i ∈
        (forward_loop_log self in_tensor (enumerate_from (S k) ls) x').1 →
        Z.of_nat i ∈ skip_connections self ∧ (k ≤ i < k + S (length ls))%nat).
    { intros x' [? ?]%IH. split; [done | lia]. }
    assert (Hhere : ∀ evs, EvCat i ∈ evs →
        evs = (if bool_decide (Z.of_nat k ∈ skip_connections self)
               then [EvCat k] else []) →
        Z.of_nat i ∈ skip_connections self ∧ (k ≤ i < k + S (length ls))%nat).
    { intros evs Hin ->. case_bool_decide; [|by apply elem_of_nil in Hin].
      apply list_elem_of_singleton in Hin as [= ->]. split; [done | lia]. }
    destruct (if bool_decide _ then torch_cat _ _ else _) as [x1|e]; simpl;
      [|by eauto].
    destruct (Linear_forward l x1) as [x2|e]; simpl.
    + destruct (activation self) as [[[] g]|]; simpl.
      * specialize (Hrest (apply_activation (mkActivation true g) x2)).
        destruct (forward_loop_log _ _ _ _) as [evs r]. simpl in *.
        rewrite elem_of_app, !elem_of_cons. intros [?|[?|[?|?]]]; by eauto.
      * specialize (Hrest x2).
        destruct (forward_loop_log _ _ _ _) as [evs r]. simpl in *.
        rewrite elem_of_app, !elem_of_cons. intros [?|[?|?]]; by eauto.
      * specialize (Hrest x2).
        destruct (forward_loop_log _ _ _ _) as [evs r]. simpl in *.
        rewrite elem_of_app, !elem_of_cons. intros [?|[?|?]]; by eauto.
    + rewrite elem_of_app, list_elem_of_singleton. intros [?|?]; by eauto.
Qed.




(** ** Shapes *)

Lemma torch_cat_shape (a b : Tensor) :
  tensor_wf a → tensor_wf b → batch a = batch b →
  ∃ y, torch_cat a b = Ok y ∧ tensor_wf y ∧
       batch y = batch a ∧ dim y = (dim a + dim b)%nat.
Proof.
  intros [Hla Hra] [Hlb Hrb] Hb. unfold torch_cat.
  rewrite decide_True by done. eexists. split; [done|].
  split; [|done]. split; simpl.
  - rewrite length_zip_with. rewrite Hla, Hlb, Hb. lia.
  - clear Hla Hlb. revert Hra Hrb. generalize (rows b).
    induction (rows a) as [|r rs IH]; intros [|r' rs'] Hra Hrb; simpl;
      try by constructor.
    inversion Hra as [|? ? Hr Hrs]; inversion Hrb as [|? ? Hr' Hrs']; subst.
    constructor; [rewrite length_app; lia | by apply IH].
Qed.

Lemma Linear_forward_shape (l : Linear) (x : Tensor) :
  Linear_wf l → tensor_wf x → Z.of_nat (dim x) = in_features l →
  ∃ y, Linear_forward l x = Ok y ∧ tensor_wf y ∧
       batch y = batch x ∧ dim y = Z.to_nat (out_features l).
Proof.
  intros (_ & _ & HW & Hb & _) [Hlx Hrx] Hdim. unfold Linear_forward.
  rewrite decide_True by done. eexists. split; [done|].
  split; [|done]. split; simpl.
  - by rewrite length_fmap.
  - apply Forall_fmap, Forall_forall. intros r _. simpl.
    unfold affine. rewrite length_zip_with. lia.
Qed.

Lemma apply_activation_wf (f : Activation) (x : Tensor) :
  tensor_wf x → tensor_wf (apply_activation f x).
Proof.
  intros [Hl Hr]. split; simpl.
  - by rewrite length_fmap.
  - apply Forall_fmap. eapply Forall_impl; [exact Hr|].
    intros r Hlen. simpl. by rewrite length_fmap.
Qed.

(** A running value that fits a well-chained list of units passes
    through it: the loop raises nothing, keeps the leading sizes and ends
    with the trailing size of the chain. *)
Lemma forward_loop_shape (self : t) (in_tensor : Tensor)
    (ils : list (nat * Linear)) (w_out : nat) (x : Tensor) :
  tensor_wf in_tensor → tensor_wf x → batch x = batch in_tensor →
  well_chained (skip_connections self) (dim in_tensor) (dim x) ils w_out →
  ∃ y, forward_loop self in_tensor ils x = Ok y ∧ tensor_wf y ∧
       batch y = batch in_tensor ∧ dim y = w_out.
Proof.
  intros Hin. revert x.
  induction ils as [|[i l] ils IH]; intros x Hx Hb; simpl.
  - intros <-. by exists x.
  - intros (Hl & Hfeat & Hrest).
    assert (∃ x1, (if decide (Z.of_nat i ∈ skip_connections self)
                   then torch_cat in_tensor x else Ok x) = Ok x1 ∧
                  tensor_wf x1 ∧ batch x1 = batch in_tensor ∧
                  Z.of_nat (dim x1) = in_features l)
      as (x1 & -> & Hx1 & Hb1 & Hd1).
    { case_decide.
      - destruct (torch_cat_shape in_tensor x) as (x1 & ? & ? & ? & Hd);
          [done..|].
        exists x1. rewrite Hd. by rewrite Hfeat.
      - exists x. by rewrite Hfeat. }
    simpl.
    destruct (Linear_forward_shape l x1) as (x2 & -> & Hx2 & Hb2 & Hd2);
      [done..|].
    simpl. rewrite <- Hd2 in Hrest.
    destruct (activation self) as [[[] g]|]; simpl.
    + apply IH; [by apply apply_activation_wf | simpl; congruence | done].
    + apply IH; [done | congruence | done].
    + apply IH; [done | congruence | done].
Qed.

Lemma well_chained_app (skips : list Z) (d_in w mid w_out : nat)
    (ils1 ils2 : list (nat * Linear)) :
  well_chained skips d_in w ils1 mid →
  well_chained skips d_in mid ils2 w_out →
  well_chained skips d_in w (ils1 ++ ils2) w_out.
Proof.
  revert w. induction ils1 as [|[i l] ils1 IH]; intros w; simpl.
  - by intros ->.
  - intros (? & ? & ?) ?. eauto.
Qed.

Section chain.
Variable P : Params.
Variable self : t.
Hypothesis in_dim_nonneg : 0 ≤ in_dim self.
Hypothesis layer_width_nonneg : 0 ≤ layer_width self.
Hypothesis no_skip_at_0 : 0 ∉ skip_connections self.

(** The hidden units line up: the first takes the input, each later one
    the output of its predecessor, widened by the input at a skip
    index. *)
Lemma hidden_well_chained (n k w : nat) :
  w = (if decide (k = 0%nat) then Z.to_nat (in_dim self)
       else Z.to_nat (layer_width self)) →
  well_chained (skip_connections self) (Z.to_nat (in_dim self)) w
    (enumerate_from k (hidden_unit P self <$> seq k n))
    (if decide (n = 0%nat) then w else Z.to_nat (layer_width self)).
Proof.
  revert k w. induction n as [|n IH]; intros k w Hw; simpl; [done|].
  split_and!.
  - apply init_Linear_wf; [by apply hidden_in_nonneg | done].
  - unfold hidden_in. destruct (decide (k = 0%nat)) as [->|Hk].
    + rewrite decide_False by done. lia.
    + destruct (decide (Z.of_nat k ∈ _)); lia.
  - specialize (IH (S k) (Z.to_nat (layer_width self))).
    rewrite decide_False in IH by done.
    destruct (decide (n = 0%nat)); by apply IH.
Qed.
End chain.

(** What a successful construction tells about the arguments. *)
Lemma init_Ok_single (P : Params) (a : args) (m : t) :
  __init__ P a = Ok m → arg_num_layers a = 1 →
  0 ≤ out_dim (fresh a) ∧
  layers m = [init_Linear P 0 (arg_in_dim a) (out_dim (fresh a))].
Proof.
  rewrite init_unfold. case_decide; [|done]. intros Hm HN.
  unfold build_nn_modules in Hm. rewrite decide_True in Hm by done.
  apply rbind_Ok in Hm as (ls & Hls & [= <-]).
  apply rbind_Ok in Hls as (l & [-> [_ ?]]%nn_Linear_inv & [= <-]).
  done.
Qed.

Lemma init_Ok_deep (P : Params) (a : args) (m : t) :
  __init__ P a = Ok m → 2 ≤ arg_num_layers a →
  (0 ∉ arg_skip_connections a) ∧ 0 ≤ arg_layer_width a ∧ 0 ≤ out_dim (fresh a).
Proof.
  intros Hm HN.
  assert (H0 : 0 ∉ arg_skip_connections a).
  { intros H0. pose proof (init_rejects_skip_0 P a HN H0) as Herr.
    by rewrite Hm in Herr. }
  split; [done|]. revert Hm.
  rewrite init_unfold. case_decide; [|done].
  unfold build_nn_modules. rewrite decide_False by (simpl; lia).
  intros (ls & Hls & _)%rbind_Ok.
  apply rbind_Ok in Hls as (hs & Hhs & (l & [_ [Hw Ho]]%nn_Linear_inv & _)%rbind_Ok).
  done.
Qed.

(** The stack of a successful construction with at least one layer and
    no skip index at the output unit is well chained from [in_dim] to
    [out_dim]. *)
Lemma init_well_chained (P : Params) (a : args) (m : t) :
  __init__ P a = Ok m →
  1 ≤ arg_num_layers a →
  arg_num_layers a - 1 ∉ arg_skip_connections a →
  well_chained (arg_skip_connections a) (Z.to_nat (arg_in_dim a))
    (Z.to_nat (arg_in_dim a)) (enumerate (layers m))
    (Z.to_nat (out_dim (fresh a))).
Proof.
  intros Hm HN Hlast.
  pose proof (init_inv P a m Hm) as (Hin & _ & _).
  destruct (decide (arg_num_layers a = 1)) as [H1|H1].
  - destruct (init_Ok_single P a m Hm H1) as [Ho ->].
    cbn [enumerate enumerate_from well_chained].
    split_and!; [apply init_Linear_wf; done || lia | | done].
    rewrite H1 in Hlast. rewrite decide_False by done. simpl. lia.
  - destruct (init_Ok_deep P a m Hm) as (H0 & Hw & Ho); [lia|].
    destruct (Z.to_nat (arg_num_layers a)) as [|[|n]] eqn:Hn; [lia | lia |].
    assert (HN' : arg_num_layers a = Z.of_nat (S (S n))) by lia.
    rewrite init_unfold, decide_True in Hm by done.
    rewrite (build_nn_modules_deep P (fresh a)) with (n := n) in Hm
      by (simpl; done || lia).
    match type of Hm with Ok ?m' = _ => assert (m = m') as -> by congruence end.
    cbn [layers set_layers]. unfold enumerate.
    rewrite enumerate_from_app.
    eapply well_chained_app.
    + apply (hidden_well_chained P (fresh a)) with (n := S n) (k := 0%nat);
        simpl; done || lia.
    + rewrite length_fmap, length_seq. simpl.
      split_and!; [apply init_Linear_wf; simpl; done | | done].
      rewrite decide_False; [lia|].
      replace (Z.of_nat (S n)) with (arg_num_layers a - 1) by lia. done.
Qed.

(** Evaluation of an instance constructed with [num_layers >= 1] and no
    skip index at the output unit: an input with trailing size [in_dim]
    gives an output with the same leading sizes and trailing size
    [out_dim], whatever the number and the sizes of the leading axes. *)
Lemma forward_shape (P : Params) (a : args) (m : t) (x : Tensor) :
  __init__ P a = Ok m →
  1 ≤ arg_num_layers a →
  arg_num_layers a - 1 ∉ arg_skip_connections a →
  tensor_wf x → Z.of_nat (dim x) = arg_in_dim a →
  ∃ y, forward m x = Ok y ∧ tensor_wf y ∧
       shape y = batch x ++ [Z.to_nat (out_dim m)].
Proof.
  intros Hm HN Hlast Hx Hd.
  pose proof (init_well_chained P a m Hm HN Hlast) as Hc.
  pose proof (init_inv P a m Hm) as (_ & Heq & _).
  destruct (forward_loop_shape m x (enumerate (layers m))
              (Z.to_nat (out_dim (fresh a))) x) as (y & Hy & Hwf & Hb & Hdy);
    [done | done | done | | ].
  - rewrite Heq at 1. simpl. by rewrite <- Hd, Nat2Z.id in Hc.
  - exists y. split; [done|]. split; [done|].
    unfold shape. rewrite Hb, Hdy, Heq. done.
Qed.

(** ** Activation *)

Lemma init_activation (P : Params) (a : args) (m : t) :
  __init__ P a = Ok m →
  activation m = arg_activation a ∧
  skip_connections m = arg_skip_connections a.
Proof. intros (_ & -> & _)%init_inv. done. Qed.

Lemma activation_None_tests_false (self : t) :
  activation self = None → activation_tests_true self = false.
Proof. unfold activation_tests_true. by intros ->. Qed.

Lemma activation_Some_tests (self : t) (f : Activation) :
  activation self = Some f → activation_tests_true self = truthy f.
Proof. unfold activation_tests_true. by intros ->. Qed.

(** When the test [if self.activation:] fails the running value is left
    as the unit returned it. *)
Lemma activation_not_applied (self : t) (x : Tensor) :
  activation_tests_true self = false →
  match activation self with
  | Some f => if truthy f then apply_activation f x else x
  | None => x
  end = x.
Proof.
  unfold activation_tests_true. by destruct (activation self) as [[[] g]|].
Qed.

Lemma forward_loop_log_no_activation (self : t) (in_tensor : Tensor)
    (ils : list (nat * Linear)) (x : Tensor) (i : nat) :
  activation_tests_true self = false →
  EvActivation i ∉ (forward_loop_log self in_tensor ils x).1.
Proof.
  intros Hact. unfold activation_tests_true in Hact.
  revert x. induction ils as [|[j l] ils IH]; intros x; simpl.
  - apply not_elem_of_nil.
  - assert (Hcat : EvActivation i ∉
        (if bool_decide (Z.of_nat j ∈ skip_connections self)
         then [EvCat j] else [])).
    { case_bool_decide; [|apply not_elem_of_nil].
      by intros [=]%list_elem_of_singleton. }
    destruct (if bool_decide _ then torch_cat _ _ else _) as [x1|e]; simpl;
      [|done].
    destruct (Linear_forward l x1) as [x2|e]; simpl.
    + specialize (IH x2).
      destruct (activation self) as [[[] g]|]; [done | |];
        destruct (forward_loop_log _ _ _ _) as [evs r]; simpl in *;
        rewrite elem_of_app, elem_of_cons; intros [?|[[=]|?]]; done.
    + rewrite elem_of_app, list_elem_of_singleton. intros [?|[=]]; done.
Qed.






(** ** Evaluation without activation *)

Lemma forward_loop_affine (self : t) (in_tensor : Tensor) (ls : list Linear)
    (k : nat) (x : Tensor) :
  activation_tests_true self = false →
  forward_loop self in_tensor (enumerate_from k ls) x =
  compose_units
    (imap (λ i, affine_unit (skip_connections self) in_tensor (k + i)) ls) x.
Proof.
  intros Hact. revert k x. induction ls as [|l ls IH]; intros k x; [done|].
  rewrite imap_cons. simpl. rewrite Nat.add_0_r. unfold affine_unit at 1.
  rewrite (imap_ext _ (λ i, affine_unit (skip_connections self) in_tensor (S k + i)))
    by (intros i l' _; simpl; f_equal; lia).
  destruct (decide (Z.of_nat k ∈ skip_connections self)) as [Hs|Hs].
  - destruct (torch_cat in_tensor x) as [x1|e]; simpl; [|done].
    destruct (Linear_forward l x1) as [x2|e]; simpl; [|done].
    rewrite activation_not_applied by done. apply IH.
  - simpl. destruct (Linear_forward l x) as [x2|e]; simpl; [|done].
    rewrite activation_not_applied by done. apply IH.
Qed.

(** C7. With [activation = None] the evaluation of a constructed
    instance is, on every input, the composition in order of the affine
    maps of its units, the unit at a skip index receiving the input
    joined with the running value; it raises exactly when that
    composition does, and no activation is ever called. *)
Theorem no_activation_affine_composition (P : Params) (a : args) (m : t) :
  arg_activation a = None →
  __init__ P a = Ok m →
  ∀ x, forward m x = affine_composition m x ∧
       ∀ i, EvActivation i ∉ (forward_log m x).1.
Proof.
  intros Hnone Hm x.
  destruct (init_activation P a m Hm) as [Hact _]. rewrite Hnone in Hact.
  apply activation_None_tests_false in Hact.
  split.
  - apply (forward_loop_affine m x (layers m) 0 x Hact).
  - intros i. by apply forward_loop_log_no_activation.
Qed.

Lemma no_activation_affine_composition_witness :
  ∃ m, __init__ example_params no_activation = Ok m ∧
    forward m batch_of_5 = affine_composition m batch_of_5 ∧
    succeeds (forward m batch_of_5) ∧
    ∀ i, EvActivation i ∉ (forward_log m batch_of_5).1.
Proof.
  eexists. split; [reflexivity|].
  destruct (no_activation_affine_composition example_params no_activation
              _ eq_refl eq_refl batch_of_5) as [Heq Hno].
  split; [exact Heq|]. split; [exact I | exact Hno].
Defined.

(** An activation that is configured and whose truth value is false is
    never called: the evaluation is that of the stack without
    activation. *)
Lemma falsy_activation_never_called (P : Params) (a : args) (f : Activation)
    (m : t) (x : Tensor) :
  arg_activation a = Some f →
  truthy f = false →
  __init__ P a = Ok m →
  forward m x = affine_composition m x ∧
  ∀ i, EvActivation i ∉ (forward_log m x).1.
Proof.
  intros Hf Hfalse Hm.
  destruct (init_activation P a m Hm) as [Hact _]. rewrite Hf in Hact.
  apply activation_Some_tests in Hact. rewrite Hfalse in Hact.
  split.
  - apply (forward_loop_affine m x (layers m) 0 x Hact).
  - intros i. by apply forward_loop_log_no_activation.
Qed.


(** ** The unused [out_activation] *)

Lemma build_hidden_out_activation (P : Params) (self : t)
    (oa : option Activation) (idx : list Z) (acc : list Linear) :
  build_hidden P (set_out_activation self oa) idx acc =
  build_hidden P self idx acc.
Proof.
  revert acc. induction idx as [|i idx IH]; intros acc; simpl; [done|].
  repeat case_decide; try done;
    destruct (nn_Linear _ _ _ _); simpl; by rewrite ?IH.
Qed.

Lemma build_nn_modules_out_activation (P : Params) (self : t)
    (oa : option Activation) :
  build_nn_modules P (set_out_activation self oa) =
  rbind (build_nn_modules P self) (λ m, Ok (set_out_activation m oa)).
Proof.
  unfold build_nn_modules. rewrite build_hidden_out_activation. simpl.
  case_decide.
  - by destruct (nn_Linear _ _ _ _).
  - destruct (build_hidden _ _ _ _) as [hs|e]; simpl; [|done].
    by destruct (nn_Linear _ _ _ _).
Qed.

Lemma forward_loop_out_activation (self : t) (oa : option Activation)
    (in_tensor : Tensor) (ils : list (nat * Linear)) (x : Tensor) :
  forward_loop (set_out_activation self oa) in_tensor ils x =
  forward_loop self in_tensor ils x.
Proof.
  revert x. induction ils as [|[i l] ils IH]; intros x; simpl; [done|].
  destruct (if decide _ then _ else _) as [x1|e]; simpl; [|done].
  destruct (Linear_forward l x1) as [x2|e]; simpl; [|done].
  apply IH.
Qed.

(** C8. Two constructions that differ only in [out_activation] either
    raise the same error or give instances with the same stack that
    return the same result, value or error, on every input: the
    attribute is stored and never read. *)
Theorem out_activation_never_applied (P : Params) (a : args)
    (oa : option Activation) :
  match __init__ P a, __init__ P (with_out_activation a oa) with
  | Ok m, Ok m' =>
      m' = set_out_activation m oa ∧
      layers m' = layers m ∧
      ∀ x, forward m' x = forward m x
  | Raise e, Raise e' => e = e'
  | _, _ => False
  end.
Proof.
  rewrite !init_unfold. simpl. case_decide; [|done].
  change (fresh (with_out_activation a oa))
    with (set_out_activation (fresh a) oa).
  rewrite build_nn_modules_out_activation.
  destruct (build_nn_modules P (fresh a)) as [m|e]; simpl; [|done].
  split_and!; [done | done |].
  intros x. apply forward_loop_out_activation.
Qed.

(** ** Skip indices and the stack *)

(** The constructor succeeds on a positive [in_dim] and non-negative
    widths, provided that 0 is no skip index when there are two layers
    or more. *)
Lemma init_succeeds (P : Params) (a : args) :
  arg_in_dim a > 0 →
  0 ≤ arg_layer_width a →
  0 ≤ out_dim (fresh a) →
  (2 ≤ arg_num_layers a → 0 ∉ arg_skip_connections a) →
  ∃ m, __init__ P a = Ok m.
Proof.
  intros Hin Hw Ho H0.
  rewrite init_unfold, decide_True by done.
  destruct (decide (2 ≤ arg_num_layers a)) as [HN|HN].
  - destruct (Z.to_nat (arg_num_layers a)) as [|[|n]] eqn:Hn; [lia | lia |].
    rewrite (build_nn_modules_deep P (fresh a)) with (n := n)
      by (simpl; done || lia || by apply H0).
    by eexists.
  - unfold build_nn_modules. case_decide.
    + rewrite nn_Linear_Ok by (simpl; done || lia). by eexists.
    + simpl num_layers. rewrite range_nonpos by lia. simpl.
      rewrite nn_Linear_Ok by done. by eexists.
Qed.

(** Evaluation on the configuration of the specification with a skip
    connection at index 1: the unit at index 1 takes 12 entries, and
    batches of shape [5, 4], [2, 3, 4] and [0, 4] come out with their
    leading sizes and trailing size 4. *)
Lemma forward_shape_skip_at_1 :
  ∃ m, __init__ example_params skip_at_1 = Ok m ∧
    features <$> layers m !! 1%nat = Some (12, 8) ∧
    (∃ y, forward m batch_of_5 = Ok y ∧ tensor_wf y ∧ shape y = [5; 4]%nat) ∧
    (∃ y, forward m batch_of_2_3 = Ok y ∧ tensor_wf y ∧ shape y = [2; 3; 4]%nat) ∧
    (∃ y, forward m empty_batch = Ok y ∧ tensor_wf y ∧ shape y = [0; 4]%nat).
Proof.
  assert (Hskip : 3 - 1 ∉ [1]) by (intros H%list_elem_of_singleton; lia).
  assert (Hwf : ∀ n, tensor_wf (mkTensor [n] 4 (replicate n [1; -2; 3; -4]))).
  { intros n. split; simpl; [rewrite length_replicate; lia|].
    by apply Forall_replicate. }
  eexists. split; [reflexivity|]. split; [reflexivity|]. split_and!.
  - apply (forward_shape example_params skip_at_1 _ batch_of_5 eq_refl);
      [simpl; lia | exact Hskip | apply (Hwf 5%nat) | reflexivity].
  - apply (forward_shape example_params skip_at_1 _ batch_of_2_3 eq_refl);
      [simpl; lia | exact Hskip | | reflexivity].
    split; [reflexivity | by apply Forall_replicate].
  - apply (forward_shape example_params skip_at_1 _ empty_batch eq_refl);
      [simpl; lia | exact Hskip | apply (Hwf 0%nat) | reflexivity].
Qed.

(** A skip index equal to the index of the output unit, which the
    builder does not widen, makes every evaluation of an input of the
    right width raise the shape error of that unit. *)
Lemma forward_raises_skip_at_output (P : Params) (a : args) (m : t) (x : Tensor) :
  __init__ P a = Ok m →
  2 ≤ arg_num_layers a →
  arg_num_layers a - 1 ∈ arg_skip_connections a →
  tensor_wf x → Z.of_nat (dim x) = arg_in_dim a →
  forward m x = Raise (RuntimeError "mat1 and mat2 shapes cannot be multiplied").
Proof.
  intros Hm HN Hlast Hx Hd.
  pose proof (init_inv P a m Hm) as (Hin & _ & _).
  destruct (init_Ok_deep P a m Hm HN) as (H0 & Hw & Ho).
  destruct (Z.to_nat (arg_num_layers a)) as [|[|n]] eqn:Hn; [lia | lia |].
  rewrite init_unfold, decide_True in Hm by done.
  rewrite (build_nn_modules_deep P (fresh a)) with (n := n) in Hm
    by (simpl; done || lia).
  match type of Hm with Ok ?m' = _ => assert (m = m') as -> by congruence end.
  unfold forward, enumerate. cbn [layers set_layers].
  rewrite enumerate_from_app, forward_loop_app.
  match goal with
  | |- context [forward_loop ?s _ (enumerate_from 0 ?hs) _] =>
      destruct (forward_loop_shape s x (enumerate_from 0 hs)
                  (Z.to_nat (arg_layer_width a)) x)
        as (y & -> & Hy & Hb & Hdy); [exact Hx | exact Hx | reflexivity | | ]
  end.
  { replace (dim x) with (Z.to_nat (in_dim (fresh a))) by (simpl; lia).
    apply (hidden_well_chained P (fresh a)) with (n := S n) (k := 0%nat);
      simpl; done || lia. }
  rewrite length_fmap, length_seq. simpl.
  rewrite decide_True
    by (replace (Z.of_nat (S n)) with (arg_num_layers a - 1) by lia; done).
  destruct (torch_cat_shape x y) as (z & -> & _ & _ & Hdz); [done..|]. simpl.
  unfold Linear_forward. rewrite decide_False; [done|].
  simpl. rewrite Hdz, Hdy. simpl. lia.
Qed.

(** With a single layer the stack is the unit from [in_dim] to
    [out_dim]. *)
Lemma init_single (P : Params) (a : args) :
  arg_in_dim a > 0 → 0 ≤ out_dim (fresh a) →
  arg_num_layers a = 1 →
  __init__ P a =
  Ok (set_layers (fresh a) [init_Linear P 0 (arg_in_dim a) (out_dim (fresh a))]).
Proof.
  intros Hin Ho HN. rewrite init_unfold, decide_True by done.
  unfold build_nn_modules. rewrite decide_True by done.
  rewrite nn_Linear_Ok by (simpl; done || lia). done.
Qed.

(** With a single layer and the skip index 0 the constructor succeeds,
    and every evaluation of an input of the right width raises the shape
    error of the unit. *)
Lemma forward_raises_single_skip_0 (P : Params) (a : args) (x : Tensor) :
  arg_in_dim a > 0 → 0 ≤ out_dim (fresh a) →
  arg_num_layers a = 1 →
  0 ∈ arg_skip_connections a →
  tensor_wf x → Z.of_nat (dim x) = arg_in_dim a →
  ∃ m, __init__ P a = Ok m ∧
    forward m x = Raise (RuntimeError "mat1 and mat2 shapes cannot be multiplied").
Proof.
  intros Hin Ho HN H0 Hx Hd.
  eexists. split; [by apply init_single|].
  unfold forward. simpl. rewrite decide_True by done.
  destruct (torch_cat_shape x x) as (z & -> & _ & _ & Hdz); [done..|]. simpl.
  unfold Linear_forward. rewrite decide_False; [done|].
  simpl. rewrite Hdz. lia.
Qed.

(** C4, amended. When every skip index is at least [num_layers] (and 0 is
    none of them), on a positive [in_dim] and non-negative widths, the
    constructor raises nothing and no evaluation, completed or not, ever
    joins the input to the running value. *)
Theorem skip_beyond_stack_never_fires (P : Params) (a : args) :
  arg_in_dim a > 0 →
  0 ≤ arg_layer_width a →
  0 ≤ out_dim (fresh a) →
  (∀ s, s ∈ arg_skip_connections a → arg_num_layers a ≤ s) →
  0 ∉ arg_skip_connections a →
  ∃ m, __init__ P a = Ok m ∧
       ∀ x i, EvCat i ∉ (forward_log m x).1.
Proof.
  intros Hin Hw Ho Hge H0.
  destruct (init_succeeds P a) as [m Hm]; [done..|].
  exists m. split; [done|]. intros x i Hcat.
  apply forward_loop_log_cat in Hcat as [Hs Hi].
  destruct (init_inv P a m Hm) as (_ & Heq & Hlen).
  rewrite Heq in Hs. simpl in Hs. rewrite Hlen in Hi.
  apply Hge in Hs as Hs'.
  assert (i = 0%nat) as -> by lia. done.
Qed.

Lemma skip_beyond_stack_never_fires_witness :
  ∃ m, __init__ example_params skip_beyond = Ok m ∧
       ∀ x i, EvCat i ∉ (forward_log m x).1.
Proof.
  apply (skip_beyond_stack_never_fires example_params skip_beyond);
    simpl; try lia.
  - intros s ->%list_elem_of_singleton. lia.
  - intros H%list_elem_of_singleton. lia.
Defined.

(** C4 as stated fails at the skip index [num_layers - 1]: with three
    layers and [skip_connections = (2,)] every skip index is at least
    [num_layers - 1] and 0 is none of them, the constructor succeeds, and
    the evaluation joins the input to the running value at index 2. *)
Lemma skip_at_output_unit_fires :
  (∀ s, s ∈ arg_skip_connections skip_at_last →
        arg_num_layers skip_at_last - 1 ≤ s) ∧
  (0 ∉ arg_skip_connections skip_at_last) ∧
  ∃ m, __init__ example_params skip_at_last = Ok m ∧
       EvCat 2 ∈ (forward_log m batch_of_5).1.
Proof.
  split_and!.
  - intros s ->%list_elem_of_singleton. simpl. lia.
  - intros H%list_elem_of_singleton. lia.
  - eexists. split; [reflexivity|].
    vm_compute. do 4 apply list_elem_of_further. apply list_elem_of_here.
Qed.

(** C5 at a skip index equal to that of the output unit: the constructor
    accepts [skip_connections = (2,)] with three layers, and the
    evaluation of a batch of shape [5, 4] raises the shape error of the
    output unit, which is offered 12 entries for its 8. *)
Theorem skip_at_output_unit_breaks_forward :
  ∃ m, __init__ example_params skip_at_last = Ok m ∧
    features <$> layers m = [(4, 8); (8, 8); (8, 4)] ∧
    tensor_wf batch_of_5 ∧
    shape batch_of_5 = [5%nat; 4%nat] ∧
    forward m batch_of_5 =
      Raise (RuntimeError "mat1 and mat2 shapes cannot be multiplied").
Proof.
  eexists. split; [reflexivity|]. split; [reflexivity|].
  split; [|split; reflexivity].
  split; [reflexivity|]. simpl. repeat constructor.
Qed.

(** C3 with a single layer: the assertion on index 0 sits in the loop
    that a one-layer construction never enters, so [skip_connections =
    (0,)] is accepted; the instance returned raises a shape error on an
    input of its own input width. *)
Theorem single_layer_accepts_skip_0 :
  (0 ∈ arg_skip_connections single_skip_at_0) ∧
  arg_num_layers single_skip_at_0 = 1 ∧
  ∃ m, __init__ example_params single_skip_at_0 = Ok m ∧
    features <$> layers m = [(4, 3)] ∧
    forward m batch_of_5 =
      Raise (RuntimeError "mat1 and mat2 shapes cannot be multiplied").
Proof.
  split; [apply list_elem_of_here|]. split; [reflexivity|].
  eexists. split; [reflexivity|]. split; reflexivity.
Qed.

(** C6, amended. For a valid configuration with [num_layers = 1] the
    constructor succeeds with the single unit mapping [in_dim] to
    [out_dim]; every other [skip_connections] without the index 0 gives
    the same stack and the same result of every evaluation; every
    evaluation is the call of that unit on the input followed by the
    activation, if one is applied, and executes no concatenation. *)
Theorem single_layer_stack (P : Params) (a : args) :
  arg_in_dim a > 0 →
  0 ≤ out_dim (fresh a) →
  0 ∉ arg_skip_connections a →
  arg_num_layers a = 1 →
  ∃ m, __init__ P a = Ok m ∧
    layers m = [init_Linear P 0 (arg_in_dim a) (out_dim (fresh a))] ∧
    features <$> layers m = [(arg_in_dim a, out_dim (fresh a))] ∧
    (∀ sk, 0 ∉ sk →
       ∃ m', __init__ P (with_skip_connections a sk) = Ok m' ∧
             layers m' = layers m ∧
             ∀ x, forward m' x = forward m x) ∧
    (∀ x, forward m x =
          rbind (Linear_forward
                   (init_Linear P 0 (arg_in_dim a) (out_dim (fresh a))) x)
            (λ y, Ok (match arg_activation a with
                      | Some f => if truthy f then apply_activation f y else y
                      | None => y
                      end))) ∧
    (∀ x i, EvCat i ∉ (forward_log m x).1).
Proof.
  intros Hin Ho H0 HN.
  assert (Hfwd : ∀ sk x, 0 ∉ sk →
      forward
        (set_layers (fresh (with_skip_connections a sk))
           [init_Linear P 0 (arg_in_dim a) (out_dim (fresh a))]) x =
      rbind (Linear_forward
               (init_Linear P 0 (arg_in_dim a) (out_dim (fresh a))) x)
        (λ y, Ok (match arg_activation a with
                  | Some f => if truthy f then apply_activation f y else y
                  | None => y
                  end))).
  { intros sk x Hsk. unfold forward. simpl.
    rewrite decide_False by done. simpl.
    by destruct (Linear_forward _ x). }
  pose proof (init_single P a Hin Ho HN) as Hm.
  replace (fresh a) with (fresh (with_skip_connections a (arg_skip_connections a)))
    in Hm at 1 by (by destruct a).
  eexists. split; [exact Hm|]. split_and!; try done.
  - intros sk Hsk. eexists.
    split; [apply (init_single P (with_skip_connections a sk)); done|].
    split; [reflexivity|].
    intros x. rewrite (Hfwd (arg_skip_connections a) x H0).
    apply (Hfwd sk x Hsk).
  - intros x. by apply Hfwd.
  - intros x i [Hs Hi]%forward_loop_log_cat. simpl in *.
    assert (i = 0%nat) as -> by lia. done.
Qed.

Lemma single_layer_stack_witness :
  ∃ m, __init__ example_params single_layer = Ok m ∧
    layers m = [init_Linear example_params 0 4 3] ∧
    features <$> layers m = [(4, 3)] ∧
    (∀ sk, 0 ∉ sk →
       ∃ m', __init__ example_params (with_skip_connections single_layer sk)
             = Ok m' ∧
             layers m' = layers m ∧
             ∀ x, forward m' x = forward m x) ∧
    (∀ x, forward m x =
          rbind (Linear_forward (init_Linear example_params 0 4 3) x)
            (λ y, Ok (apply_activation ReLU y))) ∧
    (∀ x i, EvCat i ∉ (forward_log m x).1).
Proof.
  apply (single_layer_stack example_params single_layer); simpl; try lia.
  intros H%list_elem_of_singleton. lia.
Defined.

(** C6 as stated fails for the evaluation, which reads
    [skip_connections]: on the stack of the valid one-layer configuration
    [MLP(4, 1, 8, out_dim=3)], the very stack that the constructor builds
    for [skip_connections = (0,)], the evaluation of a batch of shape
    [5, 4] returns when [skip_connections] is empty and raises when it
    holds 0. *)
Lemma single_layer_forward_reads_skip_connections :
  (0 ∉ arg_skip_connections single_layer_no_skip) ∧
  arg_num_layers single_layer_no_skip = 1 ∧
  ∃ m y, __init__ example_params single_layer_no_skip = Ok m ∧
    __init__ example_params (with_skip_connections single_layer_no_skip [0]) =
      Ok (set_skip_connections m [0]) ∧
    layers (set_skip_connections m [0]) = layers m ∧
    forward m batch_of_5 = Ok y ∧
    forward (set_skip_connections m [0]) batch_of_5 =
      Raise (RuntimeError "mat1 and mat2 shapes cannot be multiplied").
Proof.
  split; [apply not_elem_of_nil|]. split; [reflexivity|].
  eexists _, _. split; [reflexivity|]. split; [reflexivity|].
  split; [reflexivity|]. split; reflexivity.
Qed.

(** ** Further properties of the constructor *)

(** X1. An instance constructed with at least one layer and without the
    index of its output unit among the skip indices maps a well-formed
    input of trailing size [in_dim], with any leading axes, to a
    well-formed output with the same leading axes, as many rows and
    trailing size [out_dim]. *)
Theorem forward_keeps_leading_axes (P : Params) (a : args) (m : t) (x : Tensor) :
  __init__ P a = Ok m →
  1 ≤ arg_num_layers a →
  arg_num_layers a - 1 ∉ arg_skip_connections a →
  tensor_wf x →
  Z.of_nat (dim x) = arg_in_dim a →
  ∃ y, forward m x = Ok y ∧ tensor_wf y ∧
       batch y = batch x ∧
       Z.of_nat (dim y) = out_dim m ∧
       length (rows y) = length (rows x).
Proof.
  intros Hm HN Hlast Hx Hd.
  destruct (forward_shape P a m x Hm HN Hlast Hx Hd) as (y & Hy & Hwf & Hsh).
  apply app_inj_tail in Hsh as [Hb Hdy].
  assert (Ho : 0 ≤ out_dim m).
  { pose proof (init_inv P a m Hm) as (_ & -> & _).
    destruct (decide (arg_num_layers a = 1)) as [H1|H1].
    - by destruct (init_Ok_single P a m Hm H1).
    - by destruct (init_Ok_deep P a m Hm) as (_ & _ & ?); [lia|]. }
  exists y. split_and!; try done.
  - rewrite Hdy. lia.
  - destruct Hwf as [-> _]. destruct Hx as [-> _]. by rewrite Hb.
Qed.

Lemma forward_keeps_leading_axes_witness :
  ∃ m y, __init__ example_params skip_at_1 = Ok m ∧
    forward m batch_of_2_3 = Ok y ∧ tensor_wf y ∧
    batch y = [2; 3]%nat ∧ Z.of_nat (dim y) = 4 ∧ length (rows y) = 6%nat.
Proof.
  eexists.
  assert (Hwf : tensor_wf batch_of_2_3).
  { split; [reflexivity | by apply Forall_replicate]. }
  assert (Hskip : 3 - 1 ∉ [1]) by (intros H%list_elem_of_singleton; lia).
  destruct (forward_keeps_leading_axes example_params skip_at_1 _ batch_of_2_3
              eq_refl ltac:(simpl; lia) Hskip Hwf eq_refl)
    as (y & Hy & Hwfy & Hb & Hd & Hl).
  exists y. split_and!; [reflexivity | exact Hy | exact Hwfy | exact Hb
                        | exact Hd | exact Hl].
Defined.

(** X2. With a positive [in_dim] and two layers or more, a skip index 0
    makes the constructor raise the assertion error of the first turn of
    its loop, with its message, before any unit is created: the outcome
    does not depend on the widths or on the parameters. *)
Theorem skip_0_assertion (P : Params) (a : args) :
  arg_in_dim a > 0 →
  2 ≤ arg_num_layers a →
  0 ∈ arg_skip_connections a →
  __init__ P a =
  Raise (AssertionError "Skip connection at layer 0 doesn't make sense.").
Proof.
  intros Hin HN H0. rewrite init_unfold, decide_True by done.
  unfold build_nn_modules. rewrite decide_False by (simpl; lia).
  unfold range. simpl num_layers.
  destruct (Z.to_nat (arg_num_layers a - 1)) as [|n] eqn:Hn; [lia|].
  simpl. by rewrite decide_True.
Qed.

Lemma skip_0_assertion_witness :
  __init__ example_params skip_at_0_deep =
  Raise (AssertionError "Skip connection at layer 0 doesn't make sense.").
Proof.
  apply (skip_0_assertion example_params skip_at_0_deep); simpl; try lia.
  apply list_elem_of_here.
Defined.

(** X3. Whatever the arguments, a construction that succeeds leaves a
    stack of [num_layers] units when [num_layers >= 1] and of one unit
    when [num_layers <= 0]; the stack is never empty, and the attributes
    of the instance are the arguments, [out_dim] being [layer_width]
    when it is not given. *)
Theorem constructed_stack_size (P : Params) (a : args) (m : t) :
  __init__ P a = Ok m →
  Z.of_nat (length (layers m)) = Z.max 1 (arg_num_layers a) ∧
  layers m ≠ [] ∧
  in_dim m = arg_in_dim a ∧ in_dim m > 0 ∧
  num_layers m = arg_num_layers a ∧
  layer_width m = arg_layer_width a ∧
  out_dim m = default (arg_layer_width a) (arg_out_dim a) ∧
  skip_connections m = arg_skip_connections a ∧
  activation m = arg_activation a ∧
  out_activation m = arg_out_activation a.
Proof.
  intros Hm. destruct (init_inv P a m Hm) as (Hin & Heq & Hlen).
  split; [lia|]. split.
  { intros Hnil. rewrite Hnil in Hlen. simpl in Hlen. lia. }
  rewrite Heq. simpl. split_and!; done.
Qed.

Lemma constructed_stack_size_witness :
  ∃ m, __init__ example_params negative_layers = Ok m ∧
    Z.of_nat (length (layers m)) = 1 ∧ out_dim m = 8.
Proof.
  eexists. split; [reflexivity|].
  destruct (constructed_stack_size example_params negative_layers _ eq_refl)
    as (Hlen & _ & _ & _ & _ & _ & Ho & _).
  split; [exact Hlen | exact Ho].
Defined.

Lemma build_hidden_units (P : Params) (self : t) (idx : list Z)
    (acc ls : list Linear) :
  build_hidden P self idx acc = Ok ls →
  (∀ k l, acc !! k = Some l →
          Linear_wf l ∧ l = init_Linear P k (in_features l) (out_features l)) →
  ∀ k l, ls !! k = Some l →
         Linear_wf l ∧ l = init_Linear P k (in_features l) (out_features l).
Proof.
  revert acc. induction idx as [|i idx IH]; intros acc; simpl.
  - by intros [= <-].
  - assert (Hstep : ∀ wi wo,
        rbind (nn_Linear P (length acc) wi wo)
          (λ l, build_hidden P self idx (acc ++ [l])) = Ok ls →
        (∀ k l, acc !! k = Some l →
           Linear_wf l ∧ l = init_Linear P k (in_features l) (out_features l)) →
        ∀ k l, ls !! k = Some l →
           Linear_wf l ∧ l = init_Linear P k (in_features l) (out_features l)).
    { intros wi wo (l0 & (-> & Hwi & Hwo)%nn_Linear_inv & Hrest)%rbind_Ok Hacc.
      apply (IH _ Hrest). intros k l Hk.
      apply lookup_app_Some in Hk as [Hk|[Hge Hk]]; [by apply Hacc|].
      apply list_lookup_singleton_Some in Hk as [Hk0 <-].
      replace k with (length acc) by lia.
      split; [by apply init_Linear_wf | done]. }
    repeat case_decide; try done; apply Hstep.
Qed.

(** X4. Every unit of a constructed instance, whatever the arguments,
    holds parameters of the sizes it declares (a weight of
    [out_features] rows of [in_features] entries and a bias of
    [out_features] entries, both sizes non-negative), and the unit at
    index [k] is the [k]-th unit created: its parameters are those the
    parameter source gives for [k]. *)
Theorem constructed_units_well_formed (P : Params) (a : args) (m : t) :
  __init__ P a = Ok m →
  Forall Linear_wf (layers m) ∧
  ∀ k l, layers m !! k = Some l →
         l = init_Linear P k (in_features l) (out_features l).
Proof.
  rewrite init_unfold. case_decide; [|done].
  unfold build_nn_modules. intros (ls & Hls & [= <-])%rbind_Ok.
  cbn [layers set_layers].
  assert (Hall : ∀ k l, ls !! k = Some l →
            Linear_wf l ∧ l = init_Linear P k (in_features l) (out_features l)).
  { revert Hls. case_decide.
    - intros (l0 & (-> & Hwi & Hwo)%nn_Linear_inv & [= <-])%rbind_Ok k l Hk.
      apply list_lookup_singleton_Some in Hk as [-> <-].
      split; [by apply init_Linear_wf | done].
    - intros (hs & Hhs & (l0 & (-> & Hwi & Hwo)%nn_Linear_inv & [= <-])%rbind_Ok)%rbind_Ok.
      intros k l Hk.
      apply lookup_app_Some in Hk as [Hk|[Hge Hk]].
      + apply (build_hidden_units _ _ _ _ _ Hhs); [|done].
        intros k' l' Hk'. by rewrite lookup_nil in Hk'.
      + apply list_lookup_singleton_Some in Hk as [Hk0 <-].
        replace k with (length hs) by lia.
        split; [by apply init_Linear_wf | done]. }
  split.
  - apply Forall_lookup. intros k l Hk. by apply (Hall k l).
  - intros k l Hk. by apply (Hall k l).
Qed.

Lemma constructed_units_well_formed_witness :
  ∃ m, __init__ example_params skip_at_last = Ok m ∧
    Forall Linear_wf (layers m) ∧
    ∀ k l, layers m !! k = Some l →
           l = init_Linear example_params k (in_features l) (out_features l).
Proof.
  eexists. split; [reflexivity|].
  exact (constructed_units_well_formed example_params skip_at_last _ eq_refl).
Defined.

(** ** Further properties of the evaluation *)

(** The first unit of a constructed instance with at least one layer
    takes [in_dim] entries. *)
Lemma init_first_unit (P : Params) (a : args) (m : t) :
  __init__ P a = Ok m →
  1 ≤ arg_num_layers a →
  ∃ l ls, layers m = l :: ls ∧ in_features l = arg_in_dim a.
Proof.
  intros Hm HN.
  destruct (decide (arg_num_layers a = 1)) as [H1|H1].
  - destruct (init_Ok_single P a m Hm H1) as [_ ->]. by eexists _, _.
  - destruct (init_Ok_deep P a m Hm) as (H0 & Hw & Ho); [lia|].
    pose proof (init_inv P a m Hm) as (Hin & _ & _).
    destruct (Z.to_nat (arg_num_layers a)) as [|[|n]] eqn:Hn; [lia | lia |].
    rewrite init_unfold, decide_True in Hm by done.
    rewrite (build_nn_modules_deep P (fresh a)) with (n := n) in Hm
      by (simpl; done || lia).
    match type of Hm with Ok ?m' = _ => assert (m = m') as -> by congruence end.
    by eexists _, _.
Qed.

(** X5. An input whose trailing size is not [in_dim] is refused by the
    first unit: on an instance constructed with at least one layer and
    without the skip index 0 the evaluation calls that unit, raises its
    shape error, and performs nothing else. *)
Theorem wrong_width_raises_at_first_unit (P : Params) (a : args) (m : t)
    (x : Tensor) :
  __init__ P a = Ok m →
  1 ≤ arg_num_layers a →
  0 ∉ arg_skip_connections a →
  Z.of_nat (dim x) ≠ arg_in_dim a →
  forward_log m x =
    ([EvLinear 0],
     Raise (RuntimeError "mat1 and mat2 shapes cannot be multiplied")) ∧
  forward m x = Raise (RuntimeError "mat1 and mat2 shapes cannot be multiplied").
Proof.
  intros Hm HN H0 Hd.
  destruct (init_first_unit P a m Hm HN) as (l & ls & Hls & Hl).
  destruct (init_activation P a m Hm) as [_ Hskip].
  assert (Hlog : forward_log m x =
    ([EvLinear 0],
     Raise (RuntimeError "mat1 and mat2 shapes cannot be multiplied"))).
  { unfold forward_log, enumerate. rewrite Hls. simpl.
    rewrite Hskip, bool_decide_eq_false_2 by done.
    unfold Linear_forward. rewrite decide_False by congruence. done. }
  split; [done|]. by rewrite <- forward_log_result, Hlog.
Qed.

Lemma wrong_width_raises_at_first_unit_witness :
  ∃ m, __init__ example_params skip_at_1 = Ok m ∧
    forward_log m narrow_batch =
      ([EvLinear 0],
       Raise (RuntimeError "mat1 and mat2 shapes cannot be multiplied")) ∧
    forward m narrow_batch =
      Raise (RuntimeError "mat1 and mat2 shapes cannot be multiplied").
Proof.
  eexists. split; [reflexivity|].
  apply (wrong_width_raises_at_first_unit example_params skip_at_1 _
           narrow_batch eq_refl); simpl; try lia.
  intros H%list_elem_of_singleton. lia.
Defined.

(** X6. With two layers or more, a skip index equal to the index of the
    output unit passes the constructor, and then every evaluation of a
    well-formed input of trailing size [in_dim] raises the shape error of
    the output unit: that unit is built for [layer_width] entries and is
    handed [in_dim] more. *)
Theorem skip_at_output_unit_always_raises (P : Params) (a : args) (m : t)
    (x : Tensor) :
  __init__ P a = Ok m →
  2 ≤ arg_num_layers a →
  arg_num_layers a - 1 ∈ arg_skip_connections a →
  tensor_wf x →
  Z.of_nat (dim x) = arg_in_dim a →
  features <$> last (layers m) = Some (arg_layer_width a, out_dim m) ∧
  forward m x = Raise (RuntimeError "mat1 and mat2 shapes cannot be multiplied").
Proof.
  intros Hm HN Hlast Hx Hd.
  split; [|by eapply forward_raises_skip_at_output].
  pose proof (init_inv P a m Hm) as (Hin & _ & _).
  destruct (init_Ok_deep P a m Hm HN) as (H0 & Hw & Ho).
  destruct (Z.to_nat (arg_num_layers a)) as [|[|n]] eqn:Hn; [lia | lia |].
  rewrite init_unfold, decide_True in Hm by done.
  rewrite (build_nn_modules_deep P (fresh a)) with (n := n) in Hm
    by (simpl; done || lia).
  match type of Hm with Ok ?m' = _ => assert (m = m') as -> by congruence end.
  cbn [layers set_layers]. by rewrite last_snoc.
Qed.

Lemma skip_at_output_unit_always_raises_witness :
  ∃ m, __init__ example_params skip_at_last = Ok m ∧
    features <$> last (layers m) = Some (8, 4) ∧
    forward m batch_of_2_3 =
      Raise (RuntimeError "mat1 and mat2 shapes cannot be multiplied").
Proof.
  eexists. split; [reflexivity|].
  apply (skip_at_output_unit_always_raises example_params skip_at_last _
           batch_of_2_3 eq_refl); simpl; try lia.
  - apply list_elem_of_here.
  - split; [reflexivity | by apply Forall_replicate].
Defined.

(** X7. With a single layer the constructor does not look at the skip
    indices: a skip index 0 is accepted, the input is then joined with
    itself before the only unit, and every well-formed input of trailing
    size [in_dim] raises the shape error of that unit. *)
Theorem single_layer_skip_0_always_raises (P : Params) (a : args) (x : Tensor) :
  arg_in_dim a > 0 →
  0 ≤ out_dim (fresh a) →
  arg_num_layers a = 1 →
  0 ∈ arg_skip_connections a →
  tensor_wf x →
  Z.of_nat (dim x) = arg_in_dim a →
  ∃ m, __init__ P a = Ok m ∧
    features <$> layers m = [(arg_in_dim a, out_dim (fresh a))] ∧
    (forward_log m x).1 = [EvCat 0; EvLinear 0] ∧
    forward m x = Raise (RuntimeError "mat1 and mat2 shapes cannot be multiplied").
Proof.
  intros Hin Ho HN H0 Hx Hd.
  destruct (forward_raises_single_skip_0 P a x) as (m & Hm & Hf); [done..|].
  exists m. split; [done|].
  destruct (init_Ok_single P a m Hm HN) as [_ Hls].
  destruct (init_activation P a m Hm) as [_ Hskip].
  split; [by rewrite Hls|]. split; [|done].
  unfold forward_log, enumerate. rewrite Hls. simpl.
  rewrite Hskip, bool_decide_eq_true_2 by done.
  destruct (torch_cat_shape x x) as (z & -> & _ & _ & Hdz); [done..|].
  unfold Linear_forward. rewrite decide_False; [done|].
  simpl. rewrite Hdz. lia.
Qed.

Lemma single_layer_skip_0_always_raises_witness :
  ∃ m, __init__ example_params single_skip_at_0 = Ok m ∧
    features <$> layers m = [(4, 3)] ∧
    (forward_log m batch_of_5).1 = [EvCat 0; EvLinear 0] ∧
    forward m batch_of_5 =
      Raise (RuntimeError "mat1 and mat2 shapes cannot be multiplied").
Proof.
  apply (single_layer_skip_0_always_raises example_params single_skip_at_0
           batch_of_5); simpl; try lia.
  - apply list_elem_of_here.
  - split; [reflexivity | by apply Forall_replicate].
Defined.

(** ** Evaluation, one batch position at a time *)

Lemma torch_cat_Ok (a b y : Tensor) :
  torch_cat a b = Ok y →
  batch a = batch b ∧ batch y = batch a ∧
  rows y = zip_with app (rows a) (rows b).
Proof. unfold torch_cat. case_decide; [|done]. by intros [= <-]. Qed.

Lemma Linear_forward_Ok (l : Linear) (x y : Tensor) :
  Linear_forward l x = Ok y →
  batch y = batch x ∧ rows y = affine (weight l) (bias l) <$> rows x.
Proof. unfold Linear_forward. case_decide; [|done]. by intros [= <-]. Qed.

Lemma forward_loop_rowwise (self : t) (in_tensor : Tensor)
    (ils : list (nat * Linear)) (x y : Tensor) (g : list Z → list Z) :
  rows x = g <$> rows in_tensor →
  forward_loop self in_tensor ils x = Ok y →
  batch y = batch x ∧
  rows y = (λ r0, row_forward_loop self r0 ils (g r0)) <$> rows in_tensor.
Proof.
  revert x g. induction ils as [|[i l] ils IH]; intros x g Hx; simpl.
  - by intros [= <-].
  - intros (x1 & Hx1 & (x2 & Hx2 & Hy)%rbind_Ok)%rbind_Ok.
    apply Linear_forward_Ok in Hx2 as [Hb2 Hr2].
    assert (batch x1 = batch x ∧
            rows x1 = (λ r0, if decide (Z.of_nat i ∈ skip_connections self)
                             then r0 ++ g r0 else g r0) <$> rows in_tensor)
      as [Hb1 Hr1].
    { destruct (decide (Z.of_nat i ∈ skip_connections self)).
      - apply torch_cat_Ok in Hx1 as (Hb & Hb' & Hr).
        split; [congruence|].
        by rewrite Hr, Hx, zip_with_fmap_r, zip_with_diag.
      - by injection Hx1 as <-. }
    rewrite Hr1, <- list_fmap_compose in Hr2.
    destruct (activation self) as [[[] f]|]; simpl in Hy.
    + eapply (IH _ (λ r0, f <$> _)) in Hy as [Hb Hr].
      * split; [simpl in Hb; congruence | exact Hr].
      * simpl. rewrite Hr2, <- list_fmap_compose. reflexivity.
    + eapply (IH _ (λ r0, _)) in Hy as [Hb Hr].
      * split; [congruence | exact Hr].
      * exact Hr2.
    + eapply (IH _ (λ r0, _)) in Hy as [Hb Hr].
      * split; [congruence | exact Hr].
      * exact Hr2.
Qed.

(** X8. An evaluation that returns keeps the leading sizes of its
    input, whatever these are, and treats the batch positions one by
    one: the row of the output at a position is the image by the stack
    of the row of the input at that position, so that equal rows, in one
    batch or in two, give equal rows. *)
Theorem forward_rowwise (self : t) (x y : Tensor) :
  forward self x = Ok y →
  batch y = batch x ∧
  rows y = row_forward self <$> rows x ∧
  ∀ x' y' j j' r,
    forward self x' = Ok y' →
    rows x !! j = Some r → rows x' !! j' = Some r →
    rows y !! j = rows y' !! j'.
Proof.
  assert (Hrows : ∀ x y, forward self x = Ok y →
            batch y = batch x ∧ rows y = row_forward self <$> rows x).
  { intros x0 y0 Hy. apply (forward_loop_rowwise _ _ _ _ _ id) in Hy.
    - done.
    - by rewrite list_fmap_id. }
  intros Hy. destruct (Hrows x y Hy) as [Hb Hr]. split_and!; try done.
  intros x' y' j j' r Hy' Hj Hj'.
  destruct (Hrows x' y' Hy') as [_ Hr'].
  by rewrite Hr, Hr', !list_lookup_fmap, Hj, Hj'.
Qed.

Lemma forward_rowwise_witness :
  ∃ m y, __init__ example_params skip_at_1 = Ok m ∧
    forward m batch_of_2_3 = Ok y ∧
    batch y = [2; 3]%nat ∧
    rows y = row_forward m <$> rows batch_of_2_3.
Proof.
  eexists _, _. split; [reflexivity|]. split; [reflexivity|].
  match goal with
  | |- batch ?y = _ ∧ rows ?y = row_forward ?m <$> _ =>
      destruct (forward_rowwise m batch_of_2_3 y eq_refl) as (Hb & Hr & _);
      exact (conj Hb Hr)
  end.
Defined.

(** ** Skip indices as a set of unit indices *)

Lemma elem_of_range (n i : Z) : i ∈ range n → 0 ≤ i < n.
Proof.
  unfold range. intros (k & -> & Hk%elem_of_seq)%list_elem_of_fmap. lia.
Qed.

Lemma build_hidden_skip_ext (P : Params) (self : t) (sk : list Z)
    (idx : list Z) (acc : list Linear) :
  (∀ i, i ∈ idx → i ∈ skip_connections self ↔ i ∈ sk) →
  build_hidden P (set_skip_connections self sk) idx acc =
  build_hidden P self idx acc.
Proof.
  revert acc. induction idx as [|i idx IH]; intros acc Hagree; [done|].
  assert (Hi : i ∈ skip_connections self ↔ i ∈ sk)
    by apply Hagree, list_elem_of_here.
  assert (Hrest : ∀ acc', build_hidden P (set_skip_connections self sk) idx acc' =
                          build_hidden P self idx acc').
  { intros acc'. apply IH. intros j Hj. by apply Hagree, list_elem_of_further. }
  simpl. destruct (decide (i = 0)) as [Hi0|Hi0].
  - rewrite (decide_ext _ _ _ _ Hi).
    destruct (decide (i ∈ sk)); [done|].
    destruct (nn_Linear _ _ _ _); simpl; [apply Hrest | done].
  - rewrite (decide_ext _ _ _ _ Hi).
    destruct (decide (i ∈ sk));
      (destruct (nn_Linear _ _ _ _); simpl; [apply Hrest | done]).
Qed.

Lemma elem_of_enumerate_from {A : Type} (k i : nat) (x : A) (l : list A) :
  (i, x) ∈ enumerate_from k l → (k ≤ i < k + length l)%nat.
Proof.
  revert k. induction l as [|y l IH]; intros k; simpl.
  - by intros ?%elem_of_nil.
  - intros [[= -> _]|Hin%IH]%elem_of_cons; lia.
Qed.

Lemma forward_loop_skip_ext (self : t) (sk : list Z) (in_tensor : Tensor)
    (ils : list (nat * Linear)) (x : Tensor) :
  (∀ i l, (i, l) ∈ ils → Z.of_nat i ∈ skip_connections self ↔ Z.of_nat i ∈ sk) →
  forward_loop (set_skip_connections self sk) in_tensor ils x =
  forward_loop self in_tensor ils x.
Proof.
  revert x. induction ils as [|[i l] ils IH]; intros x Hagree; [done|].
  assert (Hi : Z.of_nat i ∈ skip_connections self ↔ Z.of_nat i ∈ sk)
    by apply (Hagree i l), list_elem_of_here.
  simpl. rewrite (decide_ext _ _ _ _ Hi).
  destruct (if decide _ then _ else _) as [x1|e]; simpl; [|done].
  destruct (Linear_forward l x1) as [x2|e]; simpl; [|done].
  apply IH. intros j l' Hj. by apply (Hagree j l'), list_elem_of_further.
Qed.

(** X9. The skip indices count only as a set of indices of units: two
    constructions whose [skip_connections] have the same members among
    the indices [0 .. max(1, num_layers) - 1], whatever their order,
    their repetitions and their other entries (negative, or beyond the
    stack), raise the same error, or give the same stack and instances
    that return the same result, value or error, on every input. *)
Theorem skip_connections_as_index_set (P : Params) (a : args) (sk : list Z) :
  (∀ i, 0 ≤ i < Z.max 1 (arg_num_layers a) →
        i ∈ arg_skip_connections a ↔ i ∈ sk) →
  match __init__ P a, __init__ P (with_skip_connections a sk) with
  | Ok m, Ok m' =>
      layers m' = layers m ∧ ∀ x, forward m' x = forward m x
  | Raise e, Raise e' => e = e'
  | _, _ => False
  end.
Proof.
  intros Hagree.
  assert (Hbuild : build_nn_modules P (fresh (with_skip_connections a sk)) =
            rbind (build_nn_modules P (fresh a))
              (λ m, Ok (set_skip_connections m sk))).
  { change (fresh (with_skip_connections a sk))
      with (set_skip_connections (fresh a) sk).
    unfold build_nn_modules.
    rewrite build_hidden_skip_ext
      by (intros i Hi%elem_of_range; simpl in *; apply Hagree; lia).
    simpl. case_decide.
    - by destruct (nn_Linear _ _ _ _).
    - destruct (build_hidden _ _ _ _) as [hs|e]; simpl; [|done].
      by destruct (nn_Linear _ _ _ _). }
  destruct (__init__ P a) as [m|e] eqn:Hm.
  - pose proof (init_inv P a m Hm) as (Hin & Heq & Hlen).
    rewrite init_unfold, decide_True in Hm |- * by done.
    rewrite Hbuild, Hm. simpl. split; [done|].
    intros x. apply forward_loop_skip_ext.
    intros i l Hi%elem_of_enumerate_from.
    simpl in Hi. rewrite Heq at 1. simpl. apply Hagree. lia.
  - rewrite init_unfold in Hm |- *. simpl.
    destruct (decide (arg_in_dim a > 0)); [|congruence].
    by rewrite Hbuild, Hm.
Qed.

Lemma skip_connections_as_index_set_witness :
  match __init__ example_params skip_with_strays,
        __init__ example_params (with_skip_connections skip_with_strays [1]) with
  | Ok m, Ok m' =>
      layers m' = layers m ∧ ∀ x, forward m' x = forward m x
  | Raise e, Raise e' => e = e'
  | _, _ => False
  end.
Proof.
  apply (skip_connections_as_index_set example_params skip_with_strays [1]).
  intros i Hi. simpl in *. rewrite !elem_of_cons, !elem_of_nil. lia.
Defined.

(** ** A stack built with no layer asked for *)

(** X10. With [num_layers <= 0] the constructor, when it succeeds,
    leaves the single unit from [layer_width] to [out_dim], so that the
    instance takes inputs of trailing size [layer_width], not [in_dim]:
    without the skip index 0, a well-formed input of that size gives an
    output with the same leading axes and trailing size [out_dim], and an
    input of any other trailing size raises the shape error of the
    unit. *)
Theorem nonpositive_layers_take_layer_width (P : Params) (a : args) (m : t)
    (x : Tensor) :
  __init__ P a = Ok m →
  arg_num_layers a ≤ 0 →
  0 ∉ arg_skip_connections a →
  tensor_wf x →
  features <$> layers m = [(arg_layer_width a, out_dim m)] ∧
  (Z.of_nat (dim x) = arg_layer_width a →
     ∃ y, forward m x = Ok y ∧ tensor_wf y ∧
          shape y = batch x ++ [Z.to_nat (out_dim m)]) ∧
  (Z.of_nat (dim x) ≠ arg_layer_width a →
     forward m x = Raise (RuntimeError "mat1 and mat2 shapes cannot be multiplied")).
Proof.
  intros Hm HN H0 Hx.
  assert (Hls : layers m = [init_Linear P 0 (arg_layer_width a) (out_dim m)] ∧
                0 ≤ arg_layer_width a ∧ 0 ≤ out_dim m ∧
                skip_connections m = arg_skip_connections a).
  { revert Hm. rewrite init_unfold. case_decide; [|done].
    unfold build_nn_modules. rewrite decide_False by (simpl; lia).
    simpl num_layers. rewrite range_nonpos by lia. simpl.
    intros (ls & (l & (-> & Hw & Ho)%nn_Linear_inv & [= <-])%rbind_Ok
               & [= <-])%rbind_Ok.
    done. }
  destruct Hls as (Hls & Hw & Ho & Hskip). split; [by rewrite Hls|]. split.
  - intros Hd.
    destruct (forward_loop_shape m x (enumerate (layers m))
                (Z.to_nat (out_dim m)) x) as (y & Hy & Hwf & Hb & Hdy);
      [done | done | done | | ].
    + rewrite Hls. simpl. split_and!; [by apply init_Linear_wf | | done].
      rewrite Hskip, decide_False by done. done.
    + exists y. split; [done|]. split; [done|].
      unfold shape. by rewrite Hb, Hdy.
  - intros Hd. unfold forward. rewrite Hls. simpl.
    rewrite Hskip, decide_False by done. simpl.
    unfold Linear_forward. by rewrite decide_False.
Qed.

Lemma nonpositive_layers_take_layer_width_witness :
  ∃ m, __init__ example_params negative_layers = Ok m ∧
    features <$> layers m = [(8, 8)] ∧
    forward m batch_of_5 =
      Raise (RuntimeError "mat1 and mat2 shapes cannot be multiplied").
Proof.
  eexists. split; [reflexivity|].
  assert (Hwf : tensor_wf batch_of_5).
  { split; [reflexivity | by apply Forall_replicate]. }
  destruct (nonpositive_layers_take_layer_width example_params negative_layers
              _ batch_of_5 eq_refl ltac:(simpl; lia)
              ltac:(simpl; apply not_elem_of_nil) Hwf) as (Hf & _ & Hraise).
  split; [exact Hf|]. apply Hraise. simpl. lia.
Defined.
